(** * Unlisted-stocks backend: ingestion pipeline and read API

    A shallow embedding of [models.py], [scraper.py] and [main.py]:
    the deduplication key, the two page extractors, the persistence step,
    the task loop, and the three read endpoints, followed by the
    properties of the specification that concern them. *)

From Stdlib Require Import ZArith NArith Lia Ascii String List Bool Sorted.
From stdpp Require Import base option list gmap strings.

Set Warnings "-register-all".
Local Open Scope N_scope.

(** ** Python text

    A Python [str] is a sequence of code points.  String literals of the
    source are written [str "..."]; they are all ASCII apart from the rupee
    sign U+20B9. *)

Abbreviation pystr := (list N).

Definition str (s : string) : pystr := map N_of_ascii (list_ascii_of_string s).

Definition RUPEE : N := 8377.

(** [str.isspace] for one code point: the 29 code points Python treats as
    whitespace. *)
Definition isspace (c : N) : bool :=
  ((9 <=? c) && (c <=? 13)) || ((28 <=? c) && (c <=? 32))
  || (c =? 133) || (c =? 160) || (c =? 5760)
  || ((8192 <=? c) && (c <=? 8202))
  || (c =? 8232) || (c =? 8233) || (c =? 8239) || (c =? 8287) || (c =? 12288).

Fixpoint lstrip (s : pystr) : pystr :=
  match s with
  | c :: s' => if isspace c then lstrip s' else s
  | [] => []
  end.

Definition rstrip (s : pystr) : pystr := rev (lstrip (rev s)).

(** [s.strip()] *)
Definition strip (s : pystr) : pystr := rstrip (lstrip s).

(** [s.replace(old, new)] where [old] is a single character, which is the
    only way the source calls it. *)
Definition replace_char (old : N) (new : pystr) (s : pystr) : pystr :=
  flat_map (fun c => if c =? old then new else [c]) s.

Fixpoint starts_with (p s : pystr) : bool :=
  match p, s with
  | [], _ => true
  | a :: p', b :: s' => (a =? b) && starts_with p' s'
  | _ :: _, [] => false
  end.

(** [sub in s] *)
Fixpoint contains (sub s : pystr) : bool :=
  starts_with sub s ||
  match s with
  | [] => false
  | _ :: s' => contains sub s'
  end.

Definition is_ascii (c : N) : bool := c <? 128.

Definition ascii_lower (c : N) : N :=
  if (65 <=? c) && (c <=? 90) then c + 32 else c.

(** The Unicode case and digit tables are not reproduced.  What Python and
    the database do outside ASCII is left open as three functions: the
    result of [str.lower] on a text that has a non-ASCII code point, the
    digit value of a non-ASCII decimal digit, and the database's lower-case
    mapping of a non-ASCII character. *)
Class unicode_tables := {
  u_lower : pystr -> pystr;
  u_digit : N -> option N;
  u_fold : N -> N
}.

(** Tables under which nothing outside ASCII has case or is a digit. *)
Definition ascii_tables : unicode_tables :=
  {| u_lower := fun s => s; u_digit := fun _ => None; u_fold := fun c => c |}.

(** [s.encode('utf-8')]: fails on surrogates (and on anything that is not
    a code point at all). *)
Definition utf8_char (c : N) : option (list N) :=
  if c <? 128 then Some [c]
  else if c <? 2048 then Some [192 + c / 64; 128 + c mod 64]
  else if (55296 <=? c) && (c <=? 57343) then None
  else if c <? 65536 then
    Some [224 + c / 4096; 128 + (c / 64) mod 64; 128 + c mod 64]
  else if c <? 1114112 then
    Some [240 + c / 262144; 128 + (c / 4096) mod 64;
          128 + (c / 64) mod 64; 128 + c mod 64]
  else None.

Fixpoint utf8_encode (s : pystr) : option (list N) :=
  match s with
  | [] => Some []
  | c :: s' =>
      match utf8_char c, utf8_encode s' with
      | Some b, Some bs => Some (b ++ bs)
      | _, _ => None
      end
  end.

(** ** SHA-256 ([hashlib.sha256(...).hexdigest()])

    Words are 32-bit integers in [Z], additions wrap modulo 2^32. *)
Module SHA256.
Local Open Scope Z_scope.

Definition w32 (x : Z) : Z := x mod 4294967296.
Definition add32 (x y : Z) : Z := w32 (x + y).
Definition rotr (n x : Z) : Z :=
  Z.lor (Z.shiftr x n) (w32 (Z.shiftl x (32 - n))).
Definition Ch (x y z : Z) : Z :=
  Z.lxor (Z.land x y) (Z.land (w32 (Z.lnot x)) z).
Definition Maj (x y z : Z) : Z :=
  Z.lxor (Z.lxor (Z.land x y) (Z.land x z)) (Z.land y z).
Definition Sigma0 (x : Z) : Z :=
  Z.lxor (Z.lxor (rotr 2 x) (rotr 13 x)) (rotr 22 x).
Definition Sigma1 (x : Z) : Z :=
  Z.lxor (Z.lxor (rotr 6 x) (rotr 11 x)) (rotr 25 x).
Definition sigma0 (x : Z) : Z :=
  Z.lxor (Z.lxor (rotr 7 x) (rotr 18 x)) (Z.shiftr x 3).
Definition sigma1 (x : Z) : Z :=
  Z.lxor (Z.lxor (rotr 17 x) (rotr 19 x)) (Z.shiftr x 10).

(** The round constants: the first 32 bits of the fractional parts of the
    cube roots of the first 64 primes. *)
Definition K : list Z :=
  [
   1116352408; 1899447441; 3049323471; 3921009573; 961987163; 1508970993;
   2453635748; 2870763221; 3624381080; 310598401; 607225278; 1426881987;
   1925078388; 2162078206; 2614888103; 3248222580; 3835390401; 4022224774;
   264347078; 604807628; 770255983; 1249150122; 1555081692; 1996064986;
   2554220882; 2821834349; 2952996808; 3210313671; 3336571891; 3584528711;
   113926993; 338241895; 666307205; 773529912; 1294757372; 1396182291;
   1695183700; 1986661051; 2177026350; 2456956037; 2730485921; 2820302411;
   3259730800; 3345764771; 3516065817; 3600352804; 4094571909; 275423344;
   430227734; 506948616; 659060556; 883997877; 958139571; 1322822218;
   1537002063; 1747873779; 1955562222; 2024104815; 2227730452; 2361852424;
   2428436474; 2756734187; 3204031479; 3329325298 ].

(** The initial hash value, from the square roots of the first 8 primes. *)
Definition H0 : list Z :=
  [
   1779033703; 3144134277; 1013904242; 2773480762; 1359893119; 2600822924;
   528734635; 1541459225 ].

(** Big-endian bytes of [x], [n] of them. *)
Fixpoint be_bytes (n : nat) (x : Z) : list Z :=
  match n with
  | O => []
  | S n' => (Z.shiftr x (8 * Z.of_nat n')) mod 256 :: be_bytes n' x
  end.

Definition pad (msg : list Z) : list Z :=
  let len := Z.of_nat (length msg) in
  let zeros := Z.to_nat ((55 - len) mod 64) in
  msg ++ [128] ++ repeat 0 zeros ++ be_bytes 8 (8 * len).

Fixpoint be_words (n : nat) (bs : list Z) : list Z :=
  match n, bs with
  | S n', b0 :: b1 :: b2 :: b3 :: bs' =>
      (b0 * 16777216 + b1 * 65536 + b2 * 256 + b3) :: be_words n' bs'
  | _, _ => []
  end.

(** The message schedule, most recent word first while it is built. *)
Fixpoint extend (n : nat) (ws : list Z) : list Z :=
  match n with
  | O => ws
  | S n' =>
      let w := add32 (add32 (sigma1 (nth 1 ws 0)) (nth 6 ws 0))
                     (add32 (sigma0 (nth 14 ws 0)) (nth 15 ws 0)) in
      extend n' (w :: ws)
  end.

Definition schedule (block : list Z) : list Z :=
  rev (extend 48 (rev (be_words 16 block))).

Definition round (st : list Z) (kw : Z * Z) : list Z :=
  match st with
  | [a; b; c; d; e; f; g; h] =>
      let t1 := add32 (add32 (add32 h (Sigma1 e)) (Ch e f g))
                      (add32 (fst kw) (snd kw)) in
      let t2 := add32 (Sigma0 a) (Maj a b c) in
      [add32 t1 t2; a; b; c; add32 d t1; e; f; g]
  | _ => st
  end.

Definition compress (hs : list Z) (block : list Z) : list Z :=
  zip_with add32 hs (fold_left round (combine K (schedule block)) hs).

Fixpoint process (n : nat) (hs : list Z) (bs : list Z) : list Z :=
  match n with
  | O => hs
  | S n' =>
      match bs with
      | [] => hs
      | _ => process n' (compress hs (firstn 64 bs)) (skipn 64 bs)
      end
  end.

Definition digest (msg : list Z) : list Z :=
  let p := pad msg in
  flat_map (be_bytes 4) (process (length p) H0 p).

Definition hex_digit (d : Z) : N :=
  Z.to_N (if d <? 10 then 48 + d else 87 + d).

(** The 64 lower-case hexadecimal characters of the digest. *)
Definition hexdigest (msg : list N) : pystr :=
  flat_map (fun b => [hex_digit (b / 16); hex_digit (b mod 16)])
           (digest (map Z.of_N msg)).

End SHA256.

(** ** Exceptions and results *)

Inductive exn :=
  | KeyError (k : string)
  | AttributeError
  | UnicodeEncodeError
  | TypeError
  | InvalidOperation
  | IntegrityError
  | DataError.

Inductive result (A : Type) :=
  | Ok (a : A)
  | Raise (e : exn).
Arguments Ok {A} a.
Arguments Raise {A} e.

#[global] Instance result_ret : MRet result := fun A a => Ok a.
#[global] Instance result_bind : MBind result := fun A B f m =>
  match m with
  | Ok a => f a
  | Raise e => Raise e
  end.

(** ** Values

    A [decimal.Decimal] is a sign, a coefficient and an exponent, or one of
    the special values. *)
Inductive Decimal :=
  | Finite (sign : bool) (coeff : N) (exp : Z)
  | Infinity (sign : bool)
  | NaN (sign : bool) (signaling : bool) (payload : N).

(** The values a scraped item can hold, and the item itself: a [dict] with
    string keys.  A key bound to [VNone] differs from a key that is
    missing. *)
Inductive pyval :=
  | VNone
  | VStr (s : pystr)
  | VDecimal (d : Decimal)
  | VDict (m : gmap string pyval).

Abbreviation item := (gmap string pyval).

(** [item[k]] *)
Definition getitem (it : item) (k : string) : result pyval :=
  match it !! k with
  | Some v => Ok v
  | None => Raise (KeyError k)
  end.

(** [item.get(k)] and [item.get(k, default)] *)
Definition get (it : item) (k : string) : pyval := default VNone (it !! k).
Definition get_default (it : item) (k : string) (d : pyval) : pyval :=
  default d (it !! k).

(** ** Parsed documents

    What [BeautifulSoup(html_content, 'html.parser')] builds: a forest of
    text nodes, special strings (comments, doctype, script and style
    content: strings that [.text] leaves out) and tags.  Of the attributes
    only the [class] list is kept, no other is read. *)
Inductive node :=
  | NText (s : pystr)
  | NComment (s : pystr)
  | NTag (name : string) (classes : list pystr) (children : list node).

Abbreviation soup := (list node).

(** [tag.text]: every descendant text node, concatenated. *)
Fixpoint node_text (n : node) : pystr :=
  match n with
  | NText s => s
  | NComment _ => []
  | NTag _ _ cs => flat_map node_text cs
  end.

Definition text (ns : list node) : pystr := flat_map node_text ns.

(** A tag found in the tree, with the siblings that follow it. *)
Record found := {
  f_classes : list pystr;
  f_children : list node;
  f_next_siblings : list node
}.

(** [find_all(name)]: the tags called [name] below (not including) the
    root, in document order. *)
Fixpoint find_all_node (name : string) (n : node) : list found :=
  match n with
  | NTag _ _ cs =>
      (fix go (l : list node) : list found :=
         match l with
         | [] => []
         | c :: rest =>
             match c with
             | NTag nm cl kids =>
                 (if String.eqb nm name
                  then [{| f_classes := cl; f_children := kids;
                           f_next_siblings := rest |}]
                  else [])
                 ++ find_all_node name c ++ go rest
             | _ => go rest
             end
         end) cs
  | _ => []
  end.

Definition find_all (name : string) (ns : list node) : list found :=
  find_all_node name (NTag "[document]" [] ns).

(** [find(name)] *)
Definition find (name : string) (ns : list node) : option found :=
  head (find_all name ns).

Fixpoint list_eqb (a b : pystr) : bool :=
  match a, b with
  | [], [] => true
  | x :: a', y :: b' => (x =? y) && list_eqb a' b'
  | _, _ => false
  end.

(** [find(name, class_=c)] for a [c] without spaces: the first tag called
    [name] that has [c] among its classes. *)
Definition find_class (name : string) (c : pystr) (ns : list node)
  : option found :=
  head (filter (fun f => existsb (list_eqb c) (f_classes f) = true)
               (find_all name ns)).

(** [tag.find_next_sibling(text=True)]: the first following sibling that
    is a string of any kind. *)
Fixpoint first_string (l : list node) : option pystr :=
  match l with
  | [] => None
  | NText s :: _ => Some s
  | NComment s :: _ => Some s
  | NTag _ _ _ :: rest => first_string rest
  end.

Definition find_next_sibling_text (f : found) : option pystr :=
  first_string (f_next_siblings f).

(** ** [scraper.py]: text clean-up *)

Definition SPACE : pystr := str " ".

(** [clean_text(text)]; [None] stands for Python's [None]. *)
Definition clean_text (text : option pystr) : option pystr :=
  match text with
  | None => None
  | Some [] => None
  | Some s => Some (replace_char 13 SPACE (replace_char 10 SPACE (strip s)))
  end.

Definition opt_val (o : option pystr) : pyval :=
  match o with
  | Some s => VStr s
  | None => VNone
  end.

(** ** [models.py]: the table

    One record per row of [unlisted_stocks].  A column holds the Python
    value it was given ([VNone] for NULL), the price in the form the
    NUMERIC column gives it back; what the driver makes of a value whose
    type the column does not expect is outside this model.  [id] comes
    from the table's sequence and [retrieved_at] from the server clock. *)
Record UnlistedStock := {
  id : Z;
  company_name : pyval;
  symbol : pyval;
  country : pyval;
  sector : pyval;
  status : pyval;
  last_known_price : pyval;
  price_currency : pyval;
  valuation : pyval;
  contact_info : pyval;
  additional_metadata : pyval;
  tags : pyval;
  source_url : pyval;
  source_name : pyval;
  retrieved_at : Z;
  unique_hash : pyval
}.

(** The store: the rows in insertion order and the last value handed out by
    the [id] sequence. *)
Record db := {
  rows : list UnlistedStock;
  id_seq : Z
}.

Definition empty_db : db := {| rows := []; id_seq := 0 |}.

Definition is_none (v : pyval) : bool :=
  match v with
  | VNone => true
  | _ => false
  end.

(** [UnlistedStock.unique_hash == h] as the database evaluates it on text:
    NULL never compares equal. *)
Definition hash_is (h : pystr) (r : UnlistedStock) : bool :=
  match unique_hash r with
  | VStr x => list_eqb x h
  | _ => false
  end.

(** [db.query(UnlistedStock).filter(UnlistedStock.unique_hash == h).first()] *)
Definition find_by_hash (d : db) (h : pystr) : option UnlistedStock :=
  List.find (hash_is h) (rows d).

(** The NOT NULL columns and the UNIQUE constraint on [unique_hash]. *)
Definition violates_constraints (d : db) (r : UnlistedStock) : bool :=
  is_none (company_name r) || is_none (source_url r)
  || is_none (source_name r)
  || match unique_hash r with
     | VStr h => existsb (hash_is h) (rows d)
     | _ => true
     end.

(** [a] was retrieved no earlier than [b]. *)
Definition newer_or_same (a b : UnlistedStock) : Prop :=
  (retrieved_at b <= retrieved_at a)%Z.

(** ** PostgreSQL and its driver

    What the code leaves to the database and is not reproduced here:
    - the values the driver or the server refuses at a commit, whatever the
      constraints say (a number beyond the range of NUMERIC, a text with a
      character the wire format cannot carry, a value [json.dumps] cannot
      write);
    - what a NUMERIC column holds for the number it was given;
    - the order in which [ORDER BY retrieved_at DESC LIMIT n] puts rows
      with equal times: newest first, and otherwise an order of the
      database's choosing, which may change with the limit. *)
Class database := {
  refused_text : pystr -> bool;
  refused_number : Decimal -> bool;
  refused_json : pyval -> bool;
  stored_number : Decimal -> Decimal;
  ordered : Z -> list UnlistedStock -> list UnlistedStock;
  ordered_perm : forall n l, Permutation (ordered n l) l;
  ordered_sorted : forall n l, StronglySorted newer_or_same (ordered n l)
}.

(** ** Decimal text

    [decimal.Decimal(s)] as CPython's C implementation (64-bit) reads it:
    surrounding whitespace and every underscore are dropped, digits of
    other scripts count as digits, and the number must fit the widest
    context exactly. *)
Definition is_digit (c : N) : bool := (48 <=? c) && (c <=? 57).

Fixpoint span_digits (s : pystr) : pystr * pystr :=
  match s with
  | c :: s' =>
      if is_digit c
      then let '(ds, r) := span_digits s' in (c :: ds, r)
      else ([], s)
  | [] => ([], [])
  end.

Definition digits_value (ds : pystr) : N :=
  fold_left (fun acc c => 10 * acc + (c - 48)) ds 0.

Fixpoint drop_zeros (ds : pystr) : pystr :=
  match ds with
  | c :: ds' => if c =? 48 then drop_zeros ds' else ds
  | [] => []
  end.

Definition split_sign (s : pystr) : bool * pystr :=
  match s with
  | c :: s' =>
      if c =? 45 then (true, s')
      else if c =? 43 then (false, s')
      else (false, s)
  | [] => (false, [])
  end.

Definition MAX_EMAX : Z := 999999999999999999.
Definition MAX_PREC : Z := 999999999999999999.
Definition MIN_ETINY : Z := (- MAX_EMAX - (MAX_PREC - 1))%Z.

Definition in_range (ds : pystr) (e : Z) : bool :=
  let nd := Z.of_nat (Nat.max 1 (length (drop_zeros ds))) in
  ((nd <=? MAX_PREC) && (MIN_ETINY <=? e) && (e + nd - 1 <=? MAX_EMAX))%Z.

(** A payload: digits only, up to the end. *)
Definition payload (s : pystr) : option N :=
  let '(ds, r) := span_digits s in
  match r with
  | [] => Some (digits_value ds)
  | _ => None
  end.

Definition parse_finite (sign : bool) (s : pystr) : option Decimal :=
  let '(ip, r1) := span_digits s in
  let '(fp, r2) :=
    match r1 with
    | c :: r => if c =? 46 then span_digits r else ([], r1)
    | [] => ([], r1)
    end in
  let ds := ip ++ fp in
  let finish (e : Z) :=
    let e' := (e - Z.of_nat (length fp))%Z in
    if in_range ds e' then Some (Finite sign (digits_value ds) e') else None in
  match ds with
  | [] => None
  | _ =>
      match r2 with
      | [] => finish 0%Z
      | c :: r3 =>
          if (c =? 101) || (c =? 69) then
            let '(neg, r4) := split_sign r3 in
            let '(ed, r5) := span_digits r4 in
            match ed, r5 with
            | _ :: _, [] =>
                let e := Z.of_N (digits_value ed) in
                finish (if neg then (- e)%Z else e)
            | _, _ => None
            end
          else None
      end
  end.

(** The text after it was brought to ASCII. *)
Definition parse_ascii (s : pystr) : option Decimal :=
  let '(sign, r) := split_sign s in
  let low := map ascii_lower r in
  if starts_with (str "nan") low then
    option_map (NaN sign false) (payload (skipn 3 r))
  else if starts_with (str "snan") low then
    option_map (NaN sign true) (payload (skipn 4 r))
  else if list_eqb low (str "inf") || list_eqb low (str "infinity") then
    Some (Infinity sign)
  else parse_finite sign r.

(** The price text of the specification's example, "₹ 1,234.50". *)
Definition PRICE_TEXT : pystr := RUPEE :: str " 1,234.50".

Section Backend.

(** The tables and the database are parameters of everything that
    follows. *)
Context {U : unicode_tables} {D : database}.

(** [s.lower()] *)
Definition lower (s : pystr) : pystr :=
  if forallb is_ascii s then map ascii_lower s else u_lower s.

Fixpoint to_ascii (s : pystr) : option pystr :=
  match s with
  | [] => Some []
  | c :: s' =>
      if c =? 95 then to_ascii s'
      else if (0 <? c) && (c <=? 127) then cons c <$> to_ascii s'
      else if isspace c then cons 32 <$> to_ascii s'
      else match u_digit c with
           | Some d => if d <? 10 then cons (48 + d) <$> to_ascii s' else None
           | None => None
           end
  end.

(** [decimal.Decimal(s)] *)
Definition decimal_of_str (s : pystr) : result Decimal :=
  match to_ascii (strip s) ≫= parse_ascii with
  | Some d => Ok d
  | None => Raise InvalidOperation
  end.

(** ** [models.py]: the deduplication key *)

(** [create_unique_hash(company_name, source_url)]; the arguments are
    whatever the item holds, and anything but a [str] has no [strip]. *)
Definition create_unique_hash (company_name source_url : pyval)
  : result pystr :=
  match company_name, source_url with
  | VStr n, VStr u =>
      let hash_string := lower (strip n) ++ str "||" ++ lower (strip u) in
      match utf8_encode hash_string with
      | Some hash_bytes => Ok (SHA256.hexdigest hash_bytes)
      | None => Raise UnicodeEncodeError
      end
  | _, _ => Raise AttributeError
  end.

(** ** [scraper.py]: the page extractors *)

(** A [for] loop whose body may raise. *)
Fixpoint for_each {A S : Type} (body : S -> A -> result S) (l : list A)
  (s : S) : result S :=
  match l with
  | [] => Ok s
  | a :: l' => s' ← body s a; for_each body l' s'
  end.

(** [price_str.replace('₹', '').replace(',', '').strip()] *)
Definition clean_price (price_str : pystr) : pystr :=
  strip (replace_char 44 [] (replace_char RUPEE [] price_str)).

(** The price lines shared by both extractors; [price_str] is [None] when
    [clean_text] returned [None], and [None] has no [replace]. *)
Definition set_price (it : item) (price_str : option pystr) : result item :=
  match price_str with
  | None => Raise AttributeError
  | Some p =>
      d ← decimal_of_str (clean_price p);
      Ok (<["price_currency" := VStr (str "INR")]>
            (<["last_known_price" := VDecimal d]> it))
  end.

(** The body of the loop over the [<strong>] tags. *)
Definition zone_tag (it : item) (tag : found) : result item :=
  match clean_text (Some (text (f_children tag))) with
  | None | Some [] => Ok it
  | Some tag_text =>
      it1 ← (if contains (str "Buy Price") tag_text
             then set_price it (clean_text (find_next_sibling_text tag))
             else Ok it);
      let it2 :=
        if contains (str "Sector") tag_text
        then <["sector" := opt_val (clean_text (find_next_sibling_text tag))]> it1
        else it1 in
      let it3 :=
        if contains (str "Status") tag_text
        then <["status" := opt_val (clean_text (find_next_sibling_text tag))]> it2
        else it2 in
      Ok it3
  end.

(** What stands inside the [try] of [parse_unlistedzone_page]. *)
Definition zone_try (url : pystr) (doc : soup) : result item :=
  let it : item :=
    <["source_name" := VStr (str "UnlistedZone")]> {["source_url" := VStr url]} in
  match find "h1" doc with
  | None => Raise AttributeError
  | Some h1 =>
      let it :=
        <["company_name" := opt_val (clean_text (Some (text (f_children h1))))]> it in
      for_each zone_tag (find_all "strong" doc) it
  end.

(** [parse_unlistedzone_page(url, html_content)]: the item, or [None] after
    any exception. *)
Definition parse_unlistedzone_page (url : pystr) (doc : soup) : option item :=
  match zone_try url doc with
  | Ok it => Some it
  | Raise _ => None
  end.

(** [item.setdefault("metadata", {})["face_value"] = value] *)
Definition set_face_value (it : item) (value : pyval) : result item :=
  match it !! "metadata" with
  | Some (VDict m) =>
      Ok (<["metadata" := VDict (<["face_value" := value]> m)]> it)
  | Some _ => Raise TypeError
  | None => Ok (<["metadata" := VDict {["face_value" := value]}]> it)
  end.

(** The body of the loop over the rows of the price table. *)
Definition arena_row (it : item) (row : found) : result item :=
  match find_all "td" (f_children row) with
  | [c0; c1] =>
      match clean_text (Some (text (f_children c0))) with
      | None => Raise AttributeError
      | Some k =>
          let key := replace_char 58 [] k in
          let value := clean_text (Some (text (f_children c1))) in
          if contains (str "Unlisted Share Price") key then set_price it value
          else if contains (str "Sector") key
               then Ok (<["sector" := opt_val value]> it)
          else if contains (str "Face Value") key
               then set_face_value it (opt_val value)
          else Ok it
      end
  | _ => Ok it
  end.

(** [parse_unlistedarena_page(url, html_content)] *)
Definition parse_unlistedarena_page (url : pystr) (doc : soup) : option item :=
  let it : item :=
    <["source_name" := VStr (str "UnlistedArena")]> {["source_url" := VStr url]} in
  match find "h1" doc with
  | None => None
  | Some company_name_tag =>
      let it :=
        <["company_name" :=
            opt_val (clean_text (Some (text (f_children company_name_tag))))]> it in
      let body :=
        match find_class "table" (str "unlisted-price-table") doc with
        | Some data_table =>
            for_each arena_row (find_all "tr" (f_children data_table)) it
        | None => Ok it
        end in
      match body with
      | Ok it' => Some it'
      | Raise _ => None
      end
  end.

(** ** [scraper.py]: persistence *)

(** The line [process_and_save] prints before it returns. *)
Inductive outcome :=
  | Skipped
  | Added
  | ErrorIntegrity
  | ErrorGeneral.

(** Step 2a, the deduplication key of an item:
    [create_unique_hash(company_name=item["company_name"],
    source_url=item["source_url"])]. *)
Definition dedup_key (it : item) : result pystr :=
  name ← getitem it "company_name";
  url ← getitem it "source_url";
  create_unique_hash name url.

(** Step 2c, [UnlistedStock(unique_hash=hash_id, ...)]; the last two
    arguments are the values the server fills in. *)
Definition new_stock (it : item) (hash_id : pystr) (name src url : pyval)
  (i t : Z) : UnlistedStock :=
  {| id := i;
     company_name := name;
     symbol := VNone;
     country := get_default it "country" (VStr (str "India"));
     sector := get it "sector";
     status := get_default it "status" (VStr (str "Pre-IPO"));
     last_known_price := get it "last_known_price";
     price_currency := get_default it "price_currency" (VStr (str "INR"));
     valuation := VNone;
     contact_info := VNone;
     additional_metadata := get it "metadata";
     tags := VNone;
     source_url := url;
     source_name := src;
     retrieved_at := t;
     unique_hash := VStr hash_id |}.

(** A value in a String or Text column, in the NUMERIC column and in a
    JSON column; NULL is never refused. *)
Definition text_refused (v : pyval) : bool :=
  match v with
  | VStr s => refused_text s
  | _ => false
  end.

Definition number_refused (v : pyval) : bool :=
  match v with
  | VDecimal x => refused_number x
  | _ => false
  end.

Definition json_refused (v : pyval) : bool :=
  match v with
  | VNone => false
  | _ => refused_json v
  end.

(** The driver or the server refuses a value of the row. *)
Definition refuses (r : UnlistedStock) : bool :=
  text_refused (company_name r) || text_refused (symbol r)
  || text_refused (country r) || text_refused (sector r)
  || text_refused (status r) || number_refused (last_known_price r)
  || text_refused (price_currency r) || text_refused (valuation r)
  || json_refused (contact_info r) || json_refused (additional_metadata r)
  || text_refused (tags r) || text_refused (source_url r)
  || text_refused (source_name r) || text_refused (unique_hash r).

(** The row as the table holds it. *)
Definition stored_price (v : pyval) : pyval :=
  match v with
  | VDecimal x => VDecimal (stored_number x)
  | _ => v
  end.

Definition as_stored (r : UnlistedStock) : UnlistedStock :=
  {| id := id r;
     company_name := company_name r;
     symbol := symbol r;
     country := country r;
     sector := sector r;
     status := status r;
     last_known_price := stored_price (last_known_price r);
     price_currency := price_currency r;
     valuation := valuation r;
     contact_info := contact_info r;
     additional_metadata := additional_metadata r;
     tags := tags r;
     source_url := source_url r;
     source_name := source_name r;
     retrieved_at := retrieved_at r;
     unique_hash := unique_hash r |}.

(** [db.add(new_stock); db.commit()] followed, when it fails, by
    [db.rollback()].  [mk] is the new object awaiting its server-side
    values.  A refused value fails the statement before any constraint is
    looked at, with an exception that is not an [IntegrityError]
    ([DataError] stands for all of them).  A sequence value that was drawn
    is not given back by the rollback. *)
Definition add_and_commit (now : Z) (d : db) (mk : Z -> Z -> UnlistedStock)
  : db * option exn :=
  let i := (id_seq d + 1)%Z in
  let r := mk i now in
  if refuses r then (d, Some DataError)
  else if violates_constraints d r
  then ({| rows := rows d; id_seq := i |}, Some IntegrityError)
  else ({| rows := rows d ++ [as_stored r]; id_seq := i |}, None).

(** [process_and_save(db, item)] at server time [now]: the store afterwards
    and the line printed, or the exception that escapes (the store is then
    as it was). *)
Definition process_and_save (now : Z) (d : db) (it : item)
  : result (db * outcome) :=
  hash_id ← dedup_key it;
  match find_by_hash d hash_id with
  | Some _ => Ok (d, Skipped)
  | None =>
      name ← getitem it "company_name";
      src ← getitem it "source_name";
      url ← getitem it "source_url";
      match add_and_commit now d (new_stock it hash_id name src url) with
      | (d', None) => Ok (d', Added)
      | (d', Some IntegrityError) => Ok (d', ErrorIntegrity)
      | (d', Some _) => Ok (d', ErrorGeneral)
      end
  end.

(** ** [scraper.py]: the task loop *)

Record task := {
  task_source_name : pystr;
  task_url : pystr;
  task_parser : pystr -> soup -> result (option item)
}.


(** What [requests.get] gives: an exception, or a status code and a body.
    The body is kept as the tree the extractor's [BeautifulSoup] call makes
    of it. *)
Inductive fetched :=
  | FetchFailed
  | Response (status_code : Z) (body : soup).

(** What the outside world answers while one task runs: the response to the
    fetch and the server time of a commit. *)
Record reply := {
  fetch : fetched;
  now : Z
}.

(** How one pass of the loop ended. *)
Inductive task_outcome :=
  | FetchRaised
  | BadStatus (code : Z)
  | NoData
  | Caught (e : exn)
  | Saved (o : outcome).

(** One pass of the loop in [run_scrapers]. *)
Definition run_task (w : reply) (d : db) (t : task) : db * task_outcome :=
  match fetch w with
  | FetchFailed => (d, FetchRaised)
  | Response code body =>
      if (code =? 200)%Z then
        match task_parser t (task_url t) body with
        | Raise e => (d, Caught e)
        | Ok None => (d, NoData)
        | Ok (Some scraped_data) =>
            if Nat.eqb (size scraped_data) 0 then (d, NoData)
            else match process_and_save (now w) d scraped_data with
                 | Ok (d', o) => (d', Saved o)
                 | Raise e => (d, Caught e)
                 end
        end
      else (d, BadStatus code)
  end.

(** The loop, from task number [i] on; [world i] is what task [i] meets. *)
Fixpoint run_from (world : nat -> reply) (i : nat) (tasks : list task)
  (d : db) : db * list task_outcome :=
  match tasks with
  | [] => (d, [])
  | t :: rest =>
      let '(d1, o) := run_task (world i) d t in
      let '(d2, os) := run_from world (S i) rest d1 in
      (d2, o :: os)
  end.

(** [run_scrapers()] over a task list. *)
Definition run_scrapers (world : nat -> reply) (tasks : list task) (d : db)
  : db * list task_outcome :=
  run_from world 0 tasks d.

(** ** [main.py]: the read endpoints *)

(** One way to [ORDER BY retrieved_at DESC]: rows with equal times stay in
    insertion order. *)
Fixpoint insert_desc (r : UnlistedStock) (l : list UnlistedStock)
  : list UnlistedStock :=
  match l with
  | [] => [r]
  | x :: l' =>
      if (retrieved_at x <=? retrieved_at r)%Z then r :: l
      else x :: insert_desc r l'
  end.

Definition order_by_retrieved_at_desc (l : list UnlistedStock)
  : list UnlistedStock :=
  fold_right insert_desc [] l.

(** [column == x] on a text column: NULL matches nothing. *)
Definition col_is (x : pystr) (v : pyval) : bool :=
  match v with
  | VStr s => list_eqb s x
  | _ => false
  end.

(** [if x: query = query.filter(column == x)]: [None] and the empty string
    add no filter. *)
Definition filter_if (x : option pystr) (column : UnlistedStock -> pyval)
  (query : list UnlistedStock) : list UnlistedStock :=
  match x with
  | Some ((_ :: _) as v) => List.filter (fun r => col_is v (column r)) query
  | _ => query
  end.

(** LIMIT is a 64-bit integer. *)
Definition MAX_LIMIT : Z := 9223372036854775807.

(** [query.order_by(UnlistedStock.retrieved_at.desc()).limit(n).all()]:
    PostgreSQL rejects a negative LIMIT and one that does not fit 64
    bits. *)
Definition order_limit_all (n : Z) (query : list UnlistedStock)
  : result (list UnlistedStock) :=
  if ((n <? 0) || (MAX_LIMIT <? n))%Z then Raise DataError
  else Ok (firstn (Z.to_nat n) (ordered n query)).

(** [get_listings(db, sector, country, limit)]; a [limit] of [None] is the
    argument left out. *)
Definition get_listings (d : db) (by_sector by_country : option pystr)
  (limit : option Z) : result (list UnlistedStock) :=
  let limit := default 50%Z limit in
  let query := rows d in
  let query := filter_if by_sector sector query in
  let query := filter_if by_country country query in
  order_limit_all limit query.

(** [get_latest_listings(db)] *)
Definition get_latest_listings (d : db) : result (list UnlistedStock) :=
  get_listings d None None (Some 10%Z).

(** The database's lower-casing of one character. *)
Definition fold_char (c : N) : N :=
  if is_ascii c then ascii_lower c else u_fold c.

Fixpoint tails (s : pystr) : list pystr :=
  s :: match s with
       | [] => []
       | _ :: s' => tails s'
       end.

Definition PERCENT : N := 37.
Definition UNDERSCORE : N := 95.
Definition BACKSLASH : N := 92.

(** [s LIKE p]: [%] stands for any run of characters, [_] for any one
    character, and a backslash makes the next pattern character literal.
    (A pattern that ends in a lone backslash is an error in PostgreSQL;
    the patterns built below all end in [%].) *)
Fixpoint like (p s : pystr) : bool :=
  match p with
  | [] => match s with [] => true | _ :: _ => false end
  | c :: p' =>
      if c =? PERCENT then existsb (like p') (tails s)
      else if c =? UNDERSCORE then
        match s with
        | _ :: s' => like p' s'
        | [] => false
        end
      else if c =? BACKSLASH then
        match p', s with
        | e :: p'', x :: s' => (x =? e) && like p'' s'
        | _, _ => false
        end
      else
        match s with
        | x :: s' => (x =? c) && like p' s'
        | [] => false
        end
  end.

(** [column.ilike(p)]: both sides are lower-cased, then matched. *)
Definition ilike (p : pystr) (v : pyval) : bool :=
  match v with
  | VStr s => like (map fold_char p) (map fold_char s)
  | _ => false
  end.

(** [search_term = f"%{q}%"] *)
Definition search_term (q : pystr) : pystr := [PERCENT] ++ q ++ [PERCENT].

(** [search_listings(q, db)] *)
Definition search_listings (q : pystr) (d : db) : list UnlistedStock :=
  match q with
  | [] => []
  | _ :: _ =>
      firstn 25
        (ordered 25
           (List.filter (fun r => ilike (search_term q) (company_name r))
                        (rows d)))
  end.

(** ** The vocabulary of the properties *)

(** Whether a text begins with whitespace, and whether it neither begins
    nor ends with it. *)
Definition head_space (s : pystr) : bool :=
  match s with
  | c :: _ => isspace c
  | [] => false
  end.

Definition trimmed (s : pystr) : bool :=
  negb (head_space s) && negb (head_space (rev s)).

Definition blank (s : pystr) : Prop := Forall (fun c => isspace c = true) s.

Definition is_newline (c : N) : bool := (c =? 10) || (c =? 13).

Definition newline_to_space (c : N) : N := if is_newline c then 32 else c.

(** A capital letter of the Latin or of the Greek alphabet, and two
    characters that are one letter in the same or in different cases; in
    both alphabets the small letter is 32 places after its capital. *)
Definition is_capital (c : N) : bool :=
  ((65 <=? c) && (c <=? 90))
  || ((913 <=? c) && (c <=? 937) && negb (c =? 930)).

Definition same_letter (x y : N) : Prop :=
  x = y
  \/ (is_capital x = true /\ y = x + 32)
  \/ (is_capital y = true /\ x = y + 32).

(** Two texts that differ only in letter case and in the blanks around
    them: each is a trimmed middle between blanks, and the two middles
    are the same letters, place by place. *)
Definition same_but_case_and_blanks (a b : pystr) : Prop :=
  exists la ca ra lb cb rb,
    a = la ++ ca ++ ra /\ b = lb ++ cb ++ rb
    /\ blank la /\ blank ra /\ blank lb /\ blank rb
    /\ trimmed ca = true /\ trimmed cb = true
    /\ Forall2 same_letter ca cb.

(** A text of ASCII characters. *)
Definition ascii_text (s : pystr) : bool := forallb is_ascii s.

(** The cleaned text of a tag, as the loop bodies compute it. *)
Definition label_text (tag : found) : option pystr :=
  clean_text (Some (text (f_children tag))).

(** A [<strong>] tag that the UnlistedZone loop takes for the price label. *)
Definition is_price_label (tag : found) : bool :=
  match label_text tag with
  | Some ((_ :: _) as tag_text) => contains (str "Buy Price") tag_text
  | _ => false
  end.

(** The store has a row with key [h]. *)
Definition has_key (h : pystr) (d : db) : bool := existsb (hash_is h) (rows d).



(** The item a task hands to [process_and_save], when it gets that far. *)
Definition task_item (w : reply) (t : task) : option item :=
  match fetch w with
  | FetchFailed => None
  | Response code body =>
      if (code =? 200)%Z then
        match task_parser t (task_url t) body with
        | Ok (Some it) => if Nat.eqb (size it) 0 then None else Some it
        | _ => None
        end
      else None
  end.

(** The rows that pass the two filters. *)
Definition matching (d : db) (by_sector by_country : option pystr)
  : list UnlistedStock :=
  filter_if by_country country (filter_if by_sector sector (rows d)).

(** [l] is the [n] newest rows of [X], newest first (all of [X] when it has
    fewer than [n]). *)
Definition newest (n : nat) (X l : list UnlistedStock) : Prop :=
  StronglySorted newer_or_same l
  /\ length l = Nat.min n (length X)
  /\ exists rest,
       Permutation (l ++ rest) X
       /\ forall a b, In a l -> In b rest -> newer_or_same a b.

(** The characters that have a meaning of their own in a LIKE pattern, and
    the texts free of them. *)
Definition is_meta (c : N) : bool :=
  (c =? PERCENT) || (c =? UNDERSCORE) || (c =? BACKSLASH).

Definition plain (p : pystr) : bool := forallb (fun c => negb (is_meta c)) p.

(** [q] is part of the text [v], letter case apart. *)
Definition contains_ci (q : pystr) (v : pyval) : bool :=
  match v with
  | VStr name => contains (map fold_char q) (map fold_char name)
  | _ => false
  end.

(** The keys the loops of the two extractors may write. *)
Definition zone_keys : list string :=
  ["last_known_price"; "price_currency"; "sector"; "status"].

Definition arena_keys : list string :=
  ["last_known_price"; "price_currency"; "sector"; "metadata"].

(** An item that has a price has "INR" for its currency. *)
Definition price_has_currency (it : item) : Prop :=
  it !! "last_known_price" <> None ->
  it !! "price_currency" = Some (VStr (str "INR")).

(** A lower-case hexadecimal digit. *)
Definition is_hex (c : N) : bool :=
  ((48 <=? c) && (c <=? 57)) || ((97 <=? c) && (c <=? 102)).

(** The passes of a run that reported an added row. *)
Definition is_added (o : task_outcome) : bool :=
  match o with
  | Saved Added => true
  | _ => false
  end.

Definition count_added (os : list task_outcome) : nat :=
  length (List.filter is_added os).

(** A row as [process_and_save] writes them: the name, the URL and the key
    are strings and the source name is not NULL. *)
Definition is_str (v : pyval) : bool :=
  match v with
  | VStr _ => true
  | _ => false
  end.

Definition required_columns (r : UnlistedStock) : bool :=
  is_str (company_name r) && is_str (source_url r)
  && negb (is_none (source_name r)) && is_str (unique_hash r).

(** A tag whose cleaned text holds the word [w]. *)
Definition has_label (w : string) (tag : found) : bool :=
  match label_text tag with
  | Some ((_ :: _) as tag_text) => contains (str w) tag_text
  | _ => false
  end.

(** A row of the price table that the UnlistedArena loop takes for the
    price, and a row that it passes over or reads as something else. *)
Definition arena_price_row (row : found) : bool :=
  match find_all "td" (f_children row) with
  | [c0; c1] =>
      match label_text c0 with
      | Some k => contains (str "Unlisted Share Price") (replace_char 58 [] k)
      | None => false
      end
  | _ => false
  end.

Definition arena_other_row (row : found) : bool :=
  match find_all "td" (f_children row) with
  | [c0; c1] =>
      match label_text c0 with
      | Some k =>
          negb (contains (str "Unlisted Share Price") (replace_char 58 [] k))
      | None => false
      end
  | _ => true
  end.

(** "metadata" is missing or is a [dict]. *)
Definition metadata_is_dict (it : item) : Prop :=
  match it !! "metadata" with
  | None | Some (VDict _) => True
  | Some _ => False
  end.


(** The database refuses a value of the row that [process_and_save] makes
    of the item [it] with key [h]; the values the server fills in are
    never refused. *)
Definition draft_refused (it : item) (h : pystr) : bool :=
  refuses (new_stock it h (get it "company_name") (get it "source_name")
             (get it "source_url") 0 0).

End Backend.

(** * Tables and a database for the examples *)

(** [str.lower] on a text written with the Latin and the Greek alphabet
    and spaces: every capital becomes its small letter, except that a
    capital sigma at the end of a word (a letter before it and none after
    it) becomes the final sigma. *)
Definition is_letter (c : N) : bool :=
  is_capital c || ((97 <=? c) && (c <=? 122)) || ((945 <=? c) && (c <=? 969)).

Definition CAPITAL_SIGMA : N := 931.
Definition FINAL_SIGMA : N := 962.
Definition SMALL_SIGMA : N := 963.

Fixpoint greek_lower_after (letter_before : bool) (s : pystr) : pystr :=
  match s with
  | [] => []
  | c :: s' =>
      (if c =? CAPITAL_SIGMA then
         if letter_before && negb (match s' with
                                   | x :: _ => is_letter x
                                   | [] => false
                                   end)
         then FINAL_SIGMA else SMALL_SIGMA
       else if is_capital c then c + 32 else c)
      :: greek_lower_after (is_letter c) s'
  end.

Definition greek_tables : unicode_tables :=
  {| u_lower := greek_lower_after false;
     u_digit := fun _ => None;
     u_fold := fun c => if is_capital c then c + 32 else c |}.

(** The number of decimal digits of a coefficient. *)
Fixpoint count_digits (fuel : nat) (c : N) : Z :=
  match fuel with
  | O => 0
  | S fuel' => if c =? 0 then 0%Z else (1 + count_digits fuel' (c / 10))%Z
  end.

Definition digits (c : N) : Z := count_digits (N.to_nat (N.size c)) c.

(** NUMERIC holds up to 131072 digits before the decimal point and up to
    16383 after it. *)
Definition beyond_numeric (x : Decimal) : bool :=
  match x with
  | Finite _ coeff e =>
      (negb (coeff =? 0) && (131072 <? digits coeff + e)%Z)
      || (e <? - 16383)%Z
  | _ => false
  end.

(** psycopg2 writes NaN for every number that is not finite; the server
    keeps no exponent above zero and no sign on a zero. *)
Definition numeric_of (x : Decimal) : Decimal :=
  match x with
  | Finite sign coeff e =>
      let sign := if coeff =? 0 then false else sign in
      if (0 <? e)%Z then Finite sign (coeff * 10 ^ Z.to_N e) 0
      else Finite sign coeff e
  | _ => NaN false false 0
  end.

(** The database of the examples: it refuses a text with a NUL character
    or a surrogate and a number beyond the range of NUMERIC, and it keeps
    rows with equal times in insertion order. *)
Definition example_database : database.
Proof.
  refine
    {| refused_text := fun s =>
         existsb (N.eqb 0) s
         || match utf8_encode s with
            | Some _ => false
            | None => true
            end;
       refused_number := beyond_numeric;
       refused_json := fun _ => false;
       stored_number := numeric_of;
       ordered := fun _ => order_by_retrieved_at_desc;
       ordered_perm := _;
       ordered_sorted := _ |}.
  - assert (Hins : forall r l, Permutation (insert_desc r l) (r :: l)).
    { intros r l. induction l as [|x l IH]; simpl; [reflexivity|].
      destruct (retrieved_at x <=? retrieved_at r)%Z; [reflexivity|].
      rewrite IH. apply perm_swap. }
    intros _ l. induction l as [|r l IH]; simpl; [reflexivity|].
    rewrite Hins, IH. reflexivity.
  - assert (Hins : forall r l, Permutation (insert_desc r l) (r :: l)).
    { intros r l. induction l as [|x l IH]; simpl; [reflexivity|].
      destruct (retrieved_at x <=? retrieved_at r)%Z; [reflexivity|].
      rewrite IH. apply perm_swap. }
    intros _ l. induction l as [|r l IH]; simpl; [constructor|].
    revert IH. generalize (order_by_retrieved_at_desc l). clear l.
    induction 1 as [|x l Hl IH Hx]; simpl.
    + constructor; constructor.
    + destruct (retrieved_at x <=? retrieved_at r)%Z eqn:E.
      * apply Z.leb_le in E. constructor; [constructor; assumption|].
        constructor; [exact E|].
        eapply Forall_impl; [exact Hx|].
        unfold newer_or_same. intros y Hy. lia.
      * apply Z.leb_gt in E. constructor; [exact IH|].
        rewrite Hins. constructor; [|exact Hx].
        unfold newer_or_same. lia.
Defined.

(** * The specification's reading of [clean_text], and sample inputs *)

(** Following the words of the specification: every maximal run of newlines
    and carriage returns becomes one space. *)
Fixpoint collapse_newline_runs (in_run : bool) (s : pystr) : pystr :=
  match s with
  | [] => []
  | c :: s' =>
      if is_newline c
      then (if in_run then [] else [32]) ++ collapse_newline_runs true s'
      else c :: collapse_newline_runs false s'
  end.

(** ** Sample pages *)

Definition label (s : string) : node := NTag "strong" [] [NText (str s)].

(** An UnlistedZone page: a heading and three labelled values. *)
Definition zone_page (price : pystr) : soup :=
  [ NComment (str "DOCTYPE html");
    NTag "html" []
      [ NTag "body" []
          [ NTag "h1" [] [NText (str " HDB Financial Services ")];
            NTag "p" [] [label "Buy Price:"; NText price];
            NTag "p" [] [label "Sector:"; NText (str " NBFC ")];
            NTag "p" [] [label "Status:"] ] ] ].

Definition cell (s : pystr) : node := NTag "td" [] [NText s].

(** An UnlistedArena page: a heading and the price table. *)
Definition arena_page (price : pystr) : soup :=
  [ NTag "html" []
      [ NTag "body" []
          [ NTag "h1" [str "entry-title"] [NText (str "Tata Capital")];
            NTag "table" [str "table"; str "unlisted-price-table"]
              [ NTag "tr" [] [cell (str "Unlisted Share Price:"); cell price];
                NTag "tr" [] [cell (str "Sector"); cell (str "Finance")];
                NTag "tr" [] [cell (str "Face Value"); cell (str "10")] ] ] ] ].

Definition ZONE_URL : pystr := str "https://unlistedzone.com/shares/hdb".
Definition ARENA_URL : pystr := str "https://www.unlistedarena.com/tata".

(** The store after [process_and_save], whether or not it raised. *)
Definition saved (t : Z) (d : db) (it : item) : db :=
  match process_and_save (U:=ascii_tables) (D:=example_database) t d it with
  | Ok (d', _) => d'
  | Raise _ => d
  end.

(** The item an extractor returned, or the empty item. *)
Definition extracted (o : option item) : item := default ∅ o.

Definition zone_item : item :=
  extracted (parse_unlistedzone_page (U:=ascii_tables) ZONE_URL (zone_page PRICE_TEXT)).

(** An item with the three required keys and nothing else. *)
Definition bare_item : item :=
  <["source_name" := VStr (str "UnlistedZone")]>
    (<["source_url" := VStr (str "http://X/a")]>
       {["company_name" := VStr (str "Acme Corp")]}).

Definition strong_tag (s : string) (next : list node) : found :=
  {| f_classes := []; f_children := [NText (str s)]; f_next_siblings := next |}.

Definition td_tag (s : pystr) (next : list node) : found :=
  {| f_classes := []; f_children := [NText s]; f_next_siblings := next |}.

(** ** Three tasks, the second of which meets a status 500 *)

Definition zone_task (url : pystr) : task :=
  {| task_source_name := str "UnlistedZone";
     task_url := url;
     task_parser := fun u doc => Ok (parse_unlistedzone_page (U:=ascii_tables) u doc) |}.

Definition arena_task (url : pystr) : task :=
  {| task_source_name := str "UnlistedArena";
     task_url := url;
     task_parser := fun u doc => Ok (parse_unlistedarena_page (U:=ascii_tables) u doc) |}.

Definition three_tasks : list task :=
  [ zone_task ZONE_URL;
    zone_task (str "https://unlistedzone.com/shares/gone");
    arena_task ARENA_URL ].

(** The answers of the outside world to the three tasks, with commits at
    time [t0] and after. *)
Definition three_replies (t0 : Z) (i : nat) : reply :=
  match i with
  | O => {| fetch := Response 200 (zone_page PRICE_TEXT); now := t0 |}
  | S O => {| fetch := Response 500 []; now := (t0 + 1)%Z |}
  | _ => {| fetch := Response 200 (arena_page PRICE_TEXT); now := (t0 + 2)%Z |}
  end.

Definition arena_item : item :=
  extracted (parse_unlistedarena_page (U:=ascii_tables) ARENA_URL (arena_page PRICE_TEXT)).


Definition first_run : db * list task_outcome :=
  run_scrapers (U:=ascii_tables) (D:=example_database) (three_replies 1000) three_tasks empty_db.

(** ** A store with four listings *)

Definition listing (name sector country : string) : item :=
  <["country" := VStr (str country)]>
    (<["sector" := VStr (str sector)]>
       (<["source_name" := VStr (str "UnlistedZone")]>
          (<["source_url" := VStr (str "https://unlistedzone.com/" ++ str name)]>
             {["company_name" := VStr (str name)]}))).

(** Four listings saved at times 1 to 4. *)
Definition four_listings : db :=
  saved 4 (saved 3 (saved 2 (saved 1 empty_db
    (listing "Acme Finance" "Finance" "India"))
    (listing "Bolt Tech" "Tech" "India"))
    (listing "Crest Capital" "Finance" "US"))
    (listing "Delta Lending" "Finance" "India").

Definition answer (r : result (list UnlistedStock)) : list UnlistedStock :=
  match r with
  | Ok l => l
  | Raise _ => []
  end.

Definition FINANCE : option pystr := Some (str "Finance").
Definition INDIA : option pystr := Some (str "India").

(** ** More sample inputs *)

(** A page whose heading has no text. *)
Definition untitled_page : soup :=
  [ NTag "html" []
      [ NTag "body" []
          [ NTag "h1" [] [];
            NTag "p" [] [label "Sector:"; NText (str "NBFC")] ] ] ].

Definition untitled_item : item :=
  extracted (parse_unlistedzone_page (U:=ascii_tables) ZONE_URL untitled_page).

(** A page with a heading and a status, and nothing else. *)
Definition status_page : soup :=
  [ NTag "h1" [] [NText (str "Acme Corp")];
    NTag "p" [] [label "Status:"; NText (str "Pre-IPO")] ].

Definition status_item : item :=
  extracted (parse_unlistedzone_page (U:=ascii_tables) ZONE_URL status_page).

Definition acme_key : pystr :=
  match create_unique_hash (U:=ascii_tables) (VStr (str "Acme Corp"))
          (VStr (str "http://X/a")) with
  | Ok h => h
  | Raise _ => []
  end.


Definition untitled_reply : reply :=
  {| fetch := Response 200 untitled_page; now := 1000 |}.


(** ** A price the database refuses *)




(** ** Two pairs of name and URL with one key *)






(** ** A word in Greek capitals and in small letters *)

Definition ODOS_CAPITALS : pystr := [927; 916; 927; 931].
Definition ODOS_SMALL : pystr := [959; 948; 959; 963].

(** * Properties *)

Section Properties.

Variable U : unicode_tables.
Variable D : database.

(** ** Text *)

Lemma list_eqb_eq (a b : pystr) : list_eqb a b = true <-> a = b.
Proof.
  revert b; induction a as [|x a IH]; intros [|y b]; simpl; split;
    try congruence; try discriminate.
  - rewrite andb_true_iff, N.eqb_eq, IH. intros [-> ->]; reflexivity.
  - intros [= -> ->]. rewrite N.eqb_refl. simpl. apply IH. reflexivity.
Qed.

Lemma list_eqb_refl (a : pystr) : list_eqb a a = true.
Proof. apply list_eqb_eq. reflexivity. Qed.

Lemma lstrip_blank_app (l s : pystr) : blank l -> lstrip (l ++ s) = lstrip s.
Proof.
  induction 1 as [|c l Hc _ IH]; simpl; [reflexivity|].
  rewrite Hc. exact IH.
Qed.

Lemma lstrip_blank (l : pystr) : blank l -> lstrip l = [].
Proof.
  intros H. rewrite <- (app_nil_r l). rewrite lstrip_blank_app by exact H.
  reflexivity.
Qed.

Lemma lstrip_no_head_space (s : pystr) : head_space s = false -> lstrip s = s.
Proof. destruct s as [|c s]; simpl; [reflexivity|]. intros ->. reflexivity. Qed.

Lemma lstrip_split (s : pystr) :
  exists l, s = l ++ lstrip s /\ blank l /\ head_space (lstrip s) = false.
Proof.
  induction s as [|c s (l & Hs & Hl & Hh)]; simpl.
  - exists []. repeat split. constructor.
  - destruct (isspace c) eqn:Hc.
    + exists (c :: l). repeat split.
      * simpl. congruence.
      * constructor; assumption.
      * exact Hh.
    + exists []. repeat split; [constructor | simpl; exact Hc].
Qed.

Lemma blank_rev (l : pystr) : blank l -> blank (rev l).
Proof. unfold blank. intros H. apply Forall_rev. exact H. Qed.

(** What [strip] returns is the middle of the text: blanks around a text
    that is trimmed are removed, and nothing else. *)
Lemma strip_core (l c r : pystr) :
  blank l -> blank r -> trimmed c = true -> strip (l ++ c ++ r) = c.
Proof.
  intros Hl Hr Hc. unfold trimmed in Hc.
  apply andb_true_iff in Hc as [H1 H2].
  apply negb_true_iff in H1, H2.
  unfold strip, rstrip. rewrite lstrip_blank_app by exact Hl.
  destruct c as [|x c].
  - simpl. rewrite (lstrip_blank r Hr). reflexivity.
  - rewrite (lstrip_no_head_space ((x :: c) ++ r)) by exact H1.
    rewrite rev_app_distr.
    rewrite lstrip_blank_app by (apply blank_rev; exact Hr).
    rewrite lstrip_no_head_space by exact H2.
    apply rev_involutive.
Qed.

Lemma head_space_rev_lstrip (s : pystr) :
  head_space (rev s) = false -> head_space (rev (lstrip s)) = false.
Proof.
  intros H. destruct (lstrip_split s) as (l & Hs & Hl & _).
  destruct (lstrip s) as [|x t] eqn:E; [reflexivity|].
  rewrite Hs in H. rewrite rev_app_distr in H.
  destruct (rev (x :: t)) as [|y u] eqn:E2; [reflexivity|].
  simpl in H. exact H.
Qed.

Lemma strip_split (s : pystr) :
  exists l r, s = l ++ strip s ++ r /\ blank l /\ blank r
              /\ trimmed (strip s) = true.
Proof.
  destruct (lstrip_split s) as (l & Hs & Hl & Hh).
  destruct (lstrip_split (rev (lstrip s))) as (r & Hr & Hbr & Hhr).
  exists l, (rev r). unfold strip, rstrip.
  assert (E : lstrip s = rev (lstrip (rev (lstrip s))) ++ rev r).
  { rewrite <- rev_app_distr, <- Hr. symmetry; apply rev_involutive. }
  repeat split.
  - rewrite <- E. exact Hs.
  - exact Hl.
  - apply blank_rev; exact Hbr.
  - unfold trimmed. rewrite rev_involutive, Hhr. rewrite andb_true_r.
    apply negb_true_iff.
    remember (rev (lstrip (rev (lstrip s)))) as t eqn:Et.
    destruct t as [|y u]; [reflexivity|].
    rewrite E in Hh. simpl in Hh. simpl. exact Hh.
Qed.

Lemma strip_idempotent (s : pystr) : strip (strip s) = strip s.
Proof.
  destruct (strip_split s) as (l & r & _ & _ & _ & Ht).
  rewrite <- (app_nil_r (strip s)) at 1.
  apply (strip_core [] (strip s) []); [constructor | constructor | exact Ht].
Qed.

Lemma replace_char_one (old x : N) (s : pystr) :
  replace_char old [x] s = map (fun c => if c =? old then x else c) s.
Proof.
  unfold replace_char. induction s as [|c s IH]; simpl; [reflexivity|].
  rewrite IH. destruct (c =? old); reflexivity.
Qed.

Lemma replace_newlines (s : pystr) :
  replace_char 13 SPACE (replace_char 10 SPACE s) = map newline_to_space s.
Proof.
  change SPACE with [32]. rewrite !replace_char_one, map_map.
  apply map_ext. intros c. unfold newline_to_space, is_newline.
  destruct (c =? 10) eqn:E10; simpl; [reflexivity|].
  destruct (c =? 13); reflexivity.
Qed.

Lemma isspace_newline_to_space (c : N) :
  isspace (newline_to_space c) = isspace c.
Proof.
  unfold newline_to_space, is_newline.
  destruct (c =? 10) eqn:E10; [apply N.eqb_eq in E10; subst; reflexivity|].
  destruct (c =? 13) eqn:E13; [apply N.eqb_eq in E13; subst; reflexivity|].
  reflexivity.
Qed.

Lemma lstrip_map (f : N -> N) (s : pystr) :
  (forall c, isspace (f c) = isspace c) ->
  lstrip (map f s) = map f (lstrip s).
Proof.
  intros Hf. induction s as [|c s IH]; simpl; [reflexivity|].
  rewrite Hf. destruct (isspace c); [exact IH | reflexivity].
Qed.

Lemma strip_map (f : N -> N) (s : pystr) :
  (forall c, isspace (f c) = isspace c) ->
  strip (map f s) = map f (strip s).
Proof.
  intros Hf. unfold strip, rstrip.
  rewrite (lstrip_map f s Hf), <- map_rev, (lstrip_map f _ Hf), map_rev.
  reflexivity.
Qed.

(** C5, as amended: [clean_text] trims the text and puts one space in the
    place of every single newline and carriage return that is left, so the
    result is as long as the trimmed text and a run of k of them becomes k
    spaces; the result holds no newline or carriage return and is itself
    trimmed. *)
Theorem clean_text_replaces_each_newline (c : N) (s : pystr) :
  exists out,
    clean_text (Some (c :: s)) = Some out
    /\ length out = length (strip (c :: s))
    /\ (forall i x, strip (c :: s) !! i = Some x ->
          out !! i = Some (if is_newline x then 32 else x))
    /\ (forall x, In x out -> is_newline x = false)
    /\ strip out = out.
Proof.
  exists (map newline_to_space (strip (c :: s))).
  split; [|split; [|split; [|split]]].
  - unfold clean_text. rewrite replace_newlines. reflexivity.
  - apply length_map.
  - intros i x Hx. rewrite list_lookup_fmap, Hx. reflexivity.
  - intros x Hx. apply in_map_iff in Hx as (y & <- & _).
    unfold newline_to_space. destruct (is_newline y) eqn:E; [reflexivity|exact E].
  - rewrite strip_map by apply isspace_newline_to_space.
    rewrite strip_idempotent. reflexivity.
Qed.

(** ** The deduplication key *)

(** ASCII texts that agree letter by letter up to case have the same
    lower-case form. *)
Lemma lower_of_case_variants (a b : pystr) :
  forallb is_ascii a = true -> forallb is_ascii b = true ->
  Forall2 (fun x y => ascii_lower x = ascii_lower y) a b ->
  lower a = lower b.
Proof.
  intros Ha Hb H. unfold lower. rewrite Ha, Hb.
  induction H as [|x y a b Hxy _ IH]; [reflexivity|].
  simpl in Ha, Hb. apply andb_true_iff in Ha as [_ Ha], Hb as [_ Hb].
  simpl. rewrite Hxy, (IH Ha Hb). reflexivity.
Qed.

(** One ASCII letter in its two cases has one lower-case form. *)
Lemma same_letter_ascii_lower (x y : N) :
  is_ascii x = true -> is_ascii y = true -> same_letter x y ->
  ascii_lower x = ascii_lower y.
Proof.
  assert (H : forall c, is_ascii c = true -> is_capital c = true ->
                        ascii_lower c = c + 32
                        /\ ascii_lower (c + 32) = c + 32).
  { intros c Hc Hcap. unfold is_ascii in Hc. apply N.ltb_lt in Hc.
    unfold is_capital in Hcap. unfold ascii_lower.
    destruct ((65 <=? c) && (c <=? 90)) eqn:E.
    - apply andb_true_iff in E as [E1 E2]. apply N.leb_le in E1, E2.
      split; [reflexivity|].
      replace (c + 32 <=? 90) with false; [rewrite andb_false_r; reflexivity|].
      symmetry. apply N.leb_gt. lia.
    - simpl in Hcap. apply andb_true_iff in Hcap as [Hcap _].
      apply andb_true_iff in Hcap as [Hcap _]. apply N.leb_le in Hcap. lia. }
  intros Hx Hy [-> | [[Hc ->] | [Hc ->]]]; [reflexivity| |].
  - destruct (H x Hx Hc) as [-> ->]. reflexivity.
  - destruct (H y Hy Hc) as [-> ->]. reflexivity.
Qed.

Lemma lower_strip_same (a b : pystr) :
  ascii_text a = true -> ascii_text b = true ->
  same_but_case_and_blanks a b -> lower (strip a) = lower (strip b).
Proof.
  intros Ha Hb (la & ca & ra & lb & cb & rb & -> & -> & Hla & Hra & Hlb & Hrb
                & Hca & Hcb & Hsame).
  rewrite !strip_core by assumption.
  unfold ascii_text in Ha, Hb. rewrite !forallb_app in Ha, Hb.
  apply andb_true_iff in Ha as [_ Ha]. apply andb_true_iff in Ha as [Ha _].
  apply andb_true_iff in Hb as [_ Hb]. apply andb_true_iff in Hb as [Hb _].
  apply lower_of_case_variants; [exact Ha|exact Hb|].
  clear - Ha Hb Hsame.
  induction Hsame as [|x y ca cb Hxy _ IH]; [constructor|].
  simpl in Ha, Hb. apply andb_true_iff in Ha as [Hx Ha], Hb as [Hy Hb].
  constructor; [exact (same_letter_ascii_lower x y Hx Hy Hxy)|exact (IH Ha Hb)].
Qed.

(** C2, as amended: ASCII texts that differ only in letter case and
    surrounding blanks give the same key, and two items with such names
    and URLs have the same key whatever else they hold. *)
Theorem create_unique_hash_ignores_ascii_case_and_blanks (a b u v : pystr) :
  ascii_text a = true -> ascii_text b = true ->
  ascii_text u = true -> ascii_text v = true ->
  same_but_case_and_blanks a b ->
  same_but_case_and_blanks u v ->
  create_unique_hash (VStr a) (VStr u) = create_unique_hash (VStr b) (VStr v)
  /\ forall it1 it2 : item,
       it1 !! "company_name" = Some (VStr a) ->
       it1 !! "source_url" = Some (VStr u) ->
       it2 !! "company_name" = Some (VStr b) ->
       it2 !! "source_url" = Some (VStr v) ->
       dedup_key it1 = dedup_key it2.
Proof.
  intros Ha Hb Hu Hv Hab Huv.
  assert (E : create_unique_hash (VStr a) (VStr u)
              = create_unique_hash (VStr b) (VStr v)).
  { unfold create_unique_hash.
    rewrite (lower_strip_same a b Ha Hb Hab), (lower_strip_same u v Hu Hv Huv).
    reflexivity. }
  split; [exact E|].
  intros it1 it2 H1 H2 H3 H4. unfold dedup_key, getitem.
  rewrite H1, H2, H3, H4. exact E.
Qed.

(** ** Persistence *)

Lemma find_by_hash_none (d : db) (h : pystr) :
  find_by_hash d h = None <-> existsb (hash_is h) (rows d) = false.
Proof.
  unfold find_by_hash. induction (rows d) as [|r l IH]; simpl.
  - tauto.
  - destruct (hash_is h r); simpl; [split; discriminate | exact IH].
Qed.

Lemma dedup_key_ok (it : item) (h : pystr) :
  dedup_key it = Ok h ->
  exists n u, it !! "company_name" = Some (VStr n)
              /\ it !! "source_url" = Some (VStr u).
Proof.
  unfold dedup_key, getitem.
  destruct (it !! "company_name") as [name|]; [|discriminate].
  destruct (it !! "source_url") as [url|]; [|discriminate].
  simpl. unfold create_unique_hash.
  destruct name; try discriminate. destruct url; try discriminate.
  intros _. eauto.
Qed.

(** An item whose key is in the store is skipped and nothing is written. *)
Lemma process_and_save_duplicate (t : Z) (d : db) (it : item) (h : pystr)
  (r : UnlistedStock) :
  dedup_key it = Ok h -> find_by_hash d h = Some r ->
  process_and_save t d it = Ok (d, Skipped).
Proof. intros Hk Hf. unfold process_and_save. rewrite Hk. simpl. rewrite Hf. reflexivity. Qed.

(** Whether a row is refused does not depend on the values the server
    fills in. *)
Lemma refuses_new_stock (it : item) (h : pystr) (name src url : pyval)
  (i t : Z) :
  refuses (new_stock it h name src url i t)
  = refuses (new_stock it h name src url 0 0).
Proof. reflexivity. Qed.

(** Whatever [process_and_save] answers with [Added], it appended one row
    built by [new_stock] from the item. *)
Lemma process_and_save_added (t : Z) (d d' : db) (it : item) :
  process_and_save t d it = Ok (d', Added) ->
  exists h name src url,
    dedup_key it = Ok h /\ find_by_hash d h = None
    /\ rows d' = rows d
                 ++ [as_stored
                       (new_stock it h name src url (id_seq d + 1)%Z t)].
Proof.
  unfold process_and_save.
  destruct (dedup_key it) as [h|] eqn:Hk; [|discriminate]. simpl.
  destruct (find_by_hash d h) eqn:Hf; [discriminate|].
  destruct (getitem it "company_name") as [name|]; [|discriminate].
  destruct (getitem it "source_name") as [src|]; [|discriminate].
  destruct (getitem it "source_url") as [url|]; [|discriminate]. simpl.
  unfold add_and_commit. cbv zeta.
  destruct (refuses _); [discriminate|].
  destruct (violates_constraints d _); simpl; intros [= <-].
  exists h, name, src, url. repeat split; assumption.
Qed.

(** C7: in the row written for an item, status, currency and country are
    the item's own values where the item has the key, and "Pre-IPO", "INR"
    and "India" where it has not. *)
Theorem defaults_fill_only_missing_keys (t : Z) (d d' : db) (it : item) :
  process_and_save t d it = Ok (d', Added) ->
  exists r,
    rows d' = rows d ++ [r]
    /\ status r = match it !! "status" with
                  | Some v => v
                  | None => VStr (str "Pre-IPO")
                  end
    /\ price_currency r = match it !! "price_currency" with
                          | Some v => v
                          | None => VStr (str "INR")
                          end
    /\ country r = match it !! "country" with
                   | Some v => v
                   | None => VStr (str "India")
                   end.
Proof.
  intros H. destruct (process_and_save_added t d d' it H)
    as (h & name & src & url & _ & _ & Hrows).
  eexists. split; [exact Hrows|]. simpl. unfold get_default.
  destruct (it !! "status"), (it !! "price_currency"), (it !! "country");
    repeat split.
Qed.

(** C9: a key that is present and bound to [None] is written as NULL; the
    default is not used for it. *)
Theorem none_valued_keys_are_not_defaulted (t : Z) (d d' : db) (it : item) :
  process_and_save t d it = Ok (d', Added) ->
  exists r,
    rows d' = rows d ++ [r]
    /\ (it !! "status" = Some VNone -> status r = VNone)
    /\ (it !! "price_currency" = Some VNone -> price_currency r = VNone)
    /\ (it !! "country" = Some VNone -> country r = VNone).
Proof.
  intros H. destruct (process_and_save_added t d d' it H)
    as (h & name & src & url & _ & _ & Hrows).
  eexists. split; [exact Hrows|]. simpl. unfold get_default.
  repeat split; intros ->; reflexivity.
Qed.

(** ** Search *)

(** C10: the search for the empty text answers the empty list, whatever
    the store holds. *)
Theorem search_listings_empty_query (d : db) : search_listings [] d = [].
Proof. reflexivity. Qed.

(** ** The extractors *)

Lemma for_each_app {A S : Type} (body : S -> A -> result S) (l1 l2 : list A)
  (s : S) :
  for_each body (l1 ++ l2) s = (for_each body l1 s ≫= for_each body l2).
Proof.
  revert s; induction l1 as [|a l1 IH]; intros s; simpl; [reflexivity|].
  destruct (body s a) as [s'|e]; simpl; [apply IH | reflexivity].
Qed.

(** A loop one of whose passes raises whatever the state, raises. *)
Lemma for_each_raises {A S : Type} (body : S -> A -> result S) (l : list A)
  (a : A) (s : S) :
  In a l -> (forall s', exists e, body s' a = Raise e) ->
  exists e, for_each body l s = Raise e.
Proof.
  intros Hin Hbad. revert s. induction l as [|b l IH]; intros s; [destruct Hin|].
  simpl. destruct Hin as [->|Hin].
  - destruct (Hbad s) as [e ->]. exists e. reflexivity.
  - destruct (body s b) as [s'|e]; simpl; [apply IH; exact Hin | eauto].
Qed.

(** A tag that is not the price label never raises and leaves the price
    and its currency as they were. *)
Lemma zone_tag_other (it : item) (tag : found) :
  is_price_label tag = false ->
  exists it', zone_tag it tag = Ok it'
    /\ it' !! "last_known_price" = it !! "last_known_price"
    /\ it' !! "price_currency" = it !! "price_currency".
Proof.
  unfold is_price_label, label_text, zone_tag.
  destruct (clean_text (Some (text (f_children tag)))) as [[|c tag_text]|];
    cbv beta iota; intros H; try (exists it; repeat split; reflexivity).
  rewrite H.
  destruct (contains (str "Sector") (c :: tag_text)),
           (contains (str "Status") (c :: tag_text));
    (eexists; split; [reflexivity|];
     split; rewrite ?lookup_insert_ne by discriminate; reflexivity).
Qed.

Lemma zone_tags_other (tags : list found) (it : item) :
  Forall (fun tag => is_price_label tag = false) tags ->
  exists it', for_each zone_tag tags it = Ok it'
    /\ it' !! "last_known_price" = it !! "last_known_price"
    /\ it' !! "price_currency" = it !! "price_currency".
Proof.
  intros H. revert it. induction H as [|tag tags Htag _ IH]; intros it; simpl.
  - exists it. repeat split.
  - destruct (zone_tag_other it tag Htag) as (it1 & -> & E1 & E2). simpl.
    destruct (IH it1) as (it2 & -> & E3 & E4).
    exists it2. rewrite E3, E4. repeat split; assumption.
Qed.

(** The price label with its text: the pass sets the price and "INR". *)
Lemma zone_tag_price (it : item) (tag : found) (p : pystr) (d : Decimal) :
  is_price_label tag = true ->
  clean_text (find_next_sibling_text tag) = Some p ->
  decimal_of_str (clean_price p) = Ok d ->
  exists it', zone_tag it tag = Ok it'
    /\ it' !! "last_known_price" = Some (VDecimal d)
    /\ it' !! "price_currency" = Some (VStr (str "INR")).
Proof.
  unfold is_price_label, label_text, zone_tag.
  destruct (clean_text (Some (text (f_children tag)))) as [[|c tag_text]|];
    cbv beta iota; try discriminate.
  intros -> -> Hd. unfold set_price. rewrite Hd.
  destruct (contains (str "Sector") (c :: tag_text)),
           (contains (str "Status") (c :: tag_text));
    (eexists; split; [reflexivity|];
     split; rewrite ?lookup_insert_ne by discriminate;
     apply lookup_insert_eq).
Qed.

(** The price label with a text that is no decimal: the pass raises. *)
Lemma zone_tag_bad_price (it : item) (tag : found) (p : pystr) (e : exn) :
  is_price_label tag = true ->
  clean_text (find_next_sibling_text tag) = Some p ->
  decimal_of_str (clean_price p) = Raise e ->
  zone_tag it tag = Raise e.
Proof.
  unfold is_price_label, label_text, zone_tag.
  destruct (clean_text (Some (text (f_children tag)))) as [[|c tag_text]|];
    cbv beta iota; try discriminate.
  intros -> -> Hd. unfold set_price. rewrite Hd. reflexivity.
Qed.

Lemma decimal_of_price_text :
  decimal_of_str (clean_price PRICE_TEXT) = Ok (Finite false 123450 (-2)).
Proof. reflexivity. Qed.

(** C6: on a page with a heading and one "Buy Price" label whose adjacent
    text is "₹ 1,234.50", the extractor returns an item whose price is the
    decimal 1234.50 (coefficient 123450, exponent -2) and whose currency
    is "INR". *)
Theorem buy_price_text_is_parsed (url : pystr) (doc : soup) (h1 : found)
  (pre post : list found) (tag : found) :
  find "h1" doc = Some h1 ->
  find_all "strong" doc = pre ++ tag :: post ->
  Forall (fun t => is_price_label t = false) (pre ++ post) ->
  is_price_label tag = true ->
  find_next_sibling_text tag = Some PRICE_TEXT ->
  exists it,
    parse_unlistedzone_page url doc = Some it
    /\ it !! "last_known_price" = Some (VDecimal (Finite false 123450 (-2)))
    /\ it !! "price_currency" = Some (VStr (str "INR")).
Proof.
  intros Hh1 Hall Hothers Htag Htext.
  apply Forall_app in Hothers as [Hpre Hpost].
  unfold parse_unlistedzone_page, zone_try. rewrite Hh1, Hall.
  rewrite for_each_app.
  match goal with
  | |- context [for_each zone_tag pre ?s] =>
      destruct (zone_tags_other pre s Hpre) as (it1 & -> & _ & _)
  end.
  cbn [mbind result_bind for_each].
  destruct (zone_tag_price it1 tag PRICE_TEXT (Finite false 123450 (-2)) Htag)
    as (it2 & -> & E1 & E2).
  { rewrite Htext. reflexivity. }
  { exact decimal_of_price_text. }
  cbn [mbind result_bind].
  destruct (zone_tags_other post it2 Hpost) as (it3 & -> & E3 & E4).
  exists it3. rewrite E3, E4. repeat split; assumption.
Qed.

Lemma arena_row_bad_price (it : item) (row c0 c1 : found) (k p : pystr)
  (e : exn) :
  find_all "td" (f_children row) = [c0; c1] ->
  label_text c0 = Some k ->
  contains (str "Unlisted Share Price") (replace_char 58 [] k) = true ->
  label_text c1 = Some p ->
  decimal_of_str (clean_price p) = Raise e ->
  arena_row it row = Raise e.
Proof.
  unfold label_text, arena_row. intros -> -> -> -> Hd.
  unfold set_price. rewrite Hd. reflexivity.
Qed.

(** C3, as amended: a price label whose text is no decimal makes the
    extractor give up the whole item.  Both extractors return [None]: the
    UnlistedZone one when some "Buy Price" label has such a text, the
    UnlistedArena one when some "Unlisted Share Price" row of the price
    table has. *)
Theorem unparseable_price_discards_the_item (url : pystr) (doc : soup) :
  (forall tag p e,
     In tag (find_all "strong" doc) ->
     is_price_label tag = true ->
     clean_text (find_next_sibling_text tag) = Some p ->
     decimal_of_str (clean_price p) = Raise e ->
     parse_unlistedzone_page url doc = None)
  /\ (forall table row c0 c1 k p e,
        find_class "table" (str "unlisted-price-table") doc = Some table ->
        In row (find_all "tr" (f_children table)) ->
        find_all "td" (f_children row) = [c0; c1] ->
        label_text c0 = Some k ->
        contains (str "Unlisted Share Price") (replace_char 58 [] k) = true ->
        label_text c1 = Some p ->
        decimal_of_str (clean_price p) = Raise e ->
        parse_unlistedarena_page url doc = None).
Proof.
  split.
  - intros tag p e Hin Htag Hp Hd.
    unfold parse_unlistedzone_page, zone_try.
    destruct (find "h1" doc) as [h1|]; [|reflexivity].
    match goal with
    | |- context [for_each zone_tag ?l ?s] =>
        destruct (for_each_raises zone_tag l tag s Hin) as [e' ->]
    end; [|reflexivity].
    intros it. exists e. exact (zone_tag_bad_price it tag p e Htag Hp Hd).
  - intros table row c0 c1 k p e Htable Hin Htd Hk Hc Hp Hd.
    unfold parse_unlistedarena_page.
    destruct (find "h1" doc) as [h1|]; [|reflexivity].
    rewrite Htable.
    match goal with
    | |- context [for_each arena_row ?l ?s] =>
        destruct (for_each_raises arena_row l row s Hin) as [e' ->]
    end; [|reflexivity].
    intros it. exists e.
    exact (arena_row_bad_price it row c0 c1 k p e Htd Hk Hc Hp Hd).
Qed.

(** ** The store under [process_and_save] *)

Lemma find_by_hash_some (d : db) (h : pystr) (r : UnlistedStock) :
  find_by_hash d h = Some r -> has_key h d = true.
Proof.
  unfold has_key. destruct (existsb (hash_is h) (rows d)) eqn:E; [reflexivity|].
  apply find_by_hash_none in E. congruence.
Qed.

(** [process_and_save] by cases: no key, key in the store, no source name,
    a refused value, a NULL source name, and the insertion. *)
Lemma process_and_save_unfold (t : Z) (d : db) (it : item) :
  process_and_save t d it =
  match dedup_key it with
  | Raise e => Raise e
  | Ok h =>
      if has_key h d then Ok (d, Skipped)
      else
        match it !! "source_name" with
        | None => Raise (KeyError "source_name")
        | Some src =>
            let i := (id_seq d + 1)%Z in
            if draft_refused it h then Ok (d, ErrorGeneral)
            else if is_none src
            then Ok ({| rows := rows d; id_seq := i |}, ErrorIntegrity)
            else Ok ({| rows := rows d
                          ++ [as_stored
                                (new_stock it h (get it "company_name") src
                                   (get it "source_url") i t)];
                        id_seq := i |}, Added)
        end
  end.
Proof.
  destruct (dedup_key it) as [h|e] eqn:Hk.
  - destruct (find_by_hash d h) as [r|] eqn:Hf.
    + rewrite (find_by_hash_some d h r Hf).
      exact (process_and_save_duplicate t d it h r Hk Hf).
    + pose proof (proj1 (find_by_hash_none d h) Hf) as Hx.
      unfold has_key. rewrite Hx.
      destruct (dedup_key_ok it h Hk) as (n & u & Hn & Hu).
      unfold process_and_save. rewrite Hk. cbn [mbind result_bind].
      rewrite Hf. unfold getitem, get. rewrite Hn, Hu.
      unfold draft_refused, get.
      destruct (it !! "source_name") as [src|]; [|reflexivity].
      rewrite Hn, Hu.
      cbn [mbind result_bind default]. unfold add_and_commit. cbv zeta.
      rewrite refuses_new_stock.
      destruct (refuses _); [reflexivity|].
      unfold violates_constraints.
      cbn [company_name source_url source_name unique_hash new_stock is_none orb].
      rewrite Hx. destruct (is_none src); reflexivity.
  - unfold process_and_save. rewrite Hk. reflexivity.
Qed.



Lemma hash_is_new_stock (h h' : pystr) (it : item) (name src url : pyval)
  (i t : Z) :
  hash_is h' (as_stored (new_stock it h name src url i t)) = list_eqb h h'.
Proof. reflexivity. Qed.

(** After [process_and_save] returned, the item's key is in the store,
    unless a value was refused or the source name was NULL. *)
Lemma process_and_save_has_key (t : Z) (d d' : db) (it : item) (o : outcome)
  (h : pystr) :
  process_and_save t d it = Ok (d', o) -> dedup_key it = Ok h ->
  o <> ErrorIntegrity -> o <> ErrorGeneral -> has_key h d' = true.
Proof.
  rewrite process_and_save_unfold. intros H Hk. rewrite Hk in H.
  destruct (has_key h d) eqn:E.
  - injection H as <- <-. intros _ _. exact E.
  - destruct (it !! "source_name") as [src|]; [|discriminate].
    cbv zeta in H. destruct (draft_refused it h).
    { injection H as <- <-. intros _ Ho. contradiction. }
    destruct (is_none src); injection H as <- <-.
    + intros Ho. contradiction.
    + intros _ _. unfold has_key. cbn [rows]. rewrite existsb_app.
      cbn [existsb]. rewrite hash_is_new_stock, list_eqb_refl.
      rewrite orb_true_r. reflexivity.
Qed.


(** ** The task loop *)

Lemma run_task_no_item (w : reply) (d : db) (t : task) :
  task_item w t = None ->
  fst (run_task w d t) = d /\ forall o, snd (run_task w d t) <> Saved o.
Proof.
  unfold task_item, run_task. destruct (fetch w) as [|code body].
  - intros _. split; [reflexivity | discriminate].
  - destruct (code =? 200)%Z; [|intros _; split; [reflexivity | discriminate]].
    destruct (task_parser t (task_url t) body) as [[it|]|e];
      try (intros _; split; [reflexivity | discriminate]).
    destruct (Nat.eqb (size it) 0); [|discriminate].
    intros _; split; [reflexivity | discriminate].
Qed.

Lemma run_task_item (w : reply) (d : db) (t : task) (it : item) :
  task_item w t = Some it ->
  run_task w d t =
  match process_and_save (now w) d it with
  | Ok (d', o) => (d', Saved o)
  | Raise e => (d, Caught e)
  end.
Proof.
  unfold task_item, run_task. destruct (fetch w) as [|code body]; [discriminate|].
  destruct (code =? 200)%Z; [|discriminate].
  destruct (task_parser t (task_url t) body) as [[it'|]|e]; try discriminate.
  destruct (Nat.eqb (size it') 0); [discriminate|].
  intros [= ->]. reflexivity.
Qed.




Lemma run_from_cons (world : nat -> reply) (i : nat) (t : task)
  (rest : list task) (d : db) :
  run_from world i (t :: rest) d =
  (fst (run_from world (S i) rest (fst (run_task (world i) d t))),
   snd (run_task (world i) d t)
   :: snd (run_from world (S i) rest (fst (run_task (world i) d t)))).
Proof.
  simpl. destruct (run_task (world i) d t) as [d1 o]. simpl.
  destruct (run_from world (S i) rest d1) as [d2 os]. reflexivity.
Qed.












(** ** Running twice *)







(** ** The read endpoints *)

(** The first [n] of a sorted list are sorted, and none of the others is
    newer than any of them. *)
Lemma sorted_take (n : nat) (l : list UnlistedStock) :
  StronglySorted newer_or_same l ->
  StronglySorted newer_or_same (take n l)
  /\ forall a b, In a (take n l) -> In b (drop n l) -> newer_or_same a b.
Proof.
  intros Hl. revert n. induction Hl as [|x l Hl IH Hx]; intros n.
  - rewrite take_nil. split; [constructor | intros a b []].
  - destruct n as [|n]; simpl.
    + split; [constructor | intros a b []].
    + destruct (IH n) as [Hs Hle]. split.
      * constructor; [exact Hs|].
        rewrite <- (take_drop n l) in Hx. apply Forall_app in Hx. tauto.
      * intros a b [<-|Ha] Hb.
        -- rewrite <- (take_drop n l) in Hx. apply Forall_app in Hx as [_ Hx].
           rewrite List.Forall_forall in Hx. apply Hx, Hb.
        -- apply Hle; assumption.
Qed.

Lemma filter_if_spec (x : option pystr) (column : UnlistedStock -> pyval)
  (query : list UnlistedStock) (r : UnlistedStock) :
  In r (filter_if x column query) <->
  In r query /\ (forall c v, x = Some (c :: v) -> column r = VStr (c :: v)).
Proof.
  unfold filter_if. destruct x as [[|c v]|].
  - split; [intros H; split; [exact H | discriminate] | tauto].
  - rewrite filter_In. split; intros [Hin H]; (split; [exact Hin|]).
    + intros c' v' [= <- <-]. unfold col_is in H.
      destruct (column r) as [|s| |]; try discriminate.
      apply list_eqb_eq in H. congruence.
    + rewrite (H c v eq_refl). unfold col_is. apply list_eqb_refl.
  - split; [intros H; split; [exact H | discriminate] | tauto].
Qed.

Lemma get_listings_unfold (d : db) (by_sector by_country : option pystr)
  (limit : option Z) :
  get_listings d by_sector by_country limit =
  let n := default 50%Z limit in
  if ((n <? 0) || (MAX_LIMIT <? n))%Z then Raise DataError
  else Ok (take (Z.to_nat n)
             (ordered n (matching d by_sector by_country))).
Proof. reflexivity. Qed.

Lemma take_order_newest (k : Z) (n : nat) (X : list UnlistedStock) :
  newest n X (take n (ordered k X)).
Proof.
  destruct (sorted_take n _ (ordered_sorted k X)) as [Hs Hle].
  split; [exact Hs|]. split.
  - rewrite length_take, (Permutation_length (ordered_perm k X)). reflexivity.
  - exists (drop n (ordered k X)). split; [|exact Hle].
    rewrite take_drop. apply ordered_perm.
Qed.

Lemma newest_in (n : nat) (X l : list UnlistedStock) (r : UnlistedStock) :
  newest n X l -> In r l -> In r X.
Proof.
  intros (_ & _ & rest & Hp & _) Hr.
  eapply Permutation_in; [exact Hp|]. apply in_or_app. left. exact Hr.
Qed.

Lemma like_percent (p s : pystr) :
  like (PERCENT :: p) s = existsb (like p) (tails s).
Proof. reflexivity. Qed.

Lemma like_ordinary (c : N) (p s : pystr) :
  is_meta c = false ->
  like (c :: p) s = match s with
                    | x :: s' => (x =? c) && like p s'
                    | [] => false
                    end.
Proof.
  unfold is_meta. intros H.
  apply orb_false_iff in H as [H H3]. apply orb_false_iff in H as [H1 H2].
  cbn [like]. rewrite H1, H2, H3. reflexivity.
Qed.

Lemma tails_last (s : pystr) : In [] (tails s).
Proof. induction s as [|c s IH]; simpl; [left; reflexivity | right; exact IH]. Qed.

(** A pattern free of special characters and followed by [%] matches the
    texts that begin with it. *)
Lemma like_plain (p s : pystr) :
  plain p = true -> like (p ++ [PERCENT]) s = starts_with p s.
Proof.
  revert s; induction p as [|c p IH]; intros s Hp.
  - cbn [app starts_with]. rewrite like_percent.
    apply existsb_exists. exists []. split; [apply tails_last | reflexivity].
  - cbn [plain forallb] in Hp. apply andb_true_iff in Hp as [Hc Hp].
    apply negb_true_iff in Hc.
    rewrite <- app_comm_cons, (like_ordinary c _ s Hc).
    destruct s as [|x s]; [reflexivity|].
    cbn [starts_with]. rewrite (IH s Hp), (N.eqb_sym x c). reflexivity.
Qed.

Lemma contains_tails (sub s : pystr) :
  contains sub s = existsb (starts_with sub) (tails s).
Proof.
  induction s as [|c s IH]; cbn [contains tails existsb].
  - reflexivity.
  - rewrite IH. reflexivity.
Qed.

(** For a query free of special characters the pattern [%q%] matches the
    names that contain [q], letter case apart. *)
Lemma ilike_plain (q : pystr) (v : pyval) :
  plain (map fold_char q) = true ->
  ilike (search_term q) v = contains_ci q v.
Proof.
  intros Hq. unfold ilike, contains_ci, search_term.
  destruct v as [|name| |]; try reflexivity.
  rewrite !map_app. change (map fold_char [PERCENT]) with [PERCENT].
  cbn [app]. rewrite like_percent, contains_tails.
  induction (tails (map fold_char name)) as [|t ts IH]; [reflexivity|].
  cbn [existsb]. rewrite IH, (like_plain _ t Hq). reflexivity.
Qed.

(** C8, as amended: the broad query keeps the rows whose sector and country
    equal the filters that were given, answers the newest of them first,
    [limit] of them at most, and 50 when no limit is given, for every
    limit from 0 to the largest 64-bit integer; the most-recent view
    answers the 10 newest rows; the search answers the 25 newest rows
    whose company name matches the pattern [%q%] without regard to letter
    case, which for a [q] free of [%], [_] and backslash are the rows
    whose name contains [q]. *)
Theorem read_endpoints_answer (d : db) :
  (forall by_sector by_country limit,
     get_listings d by_sector by_country None
     = get_listings d by_sector by_country (Some 50%Z)
     /\ (forall r,
           In r (matching d by_sector by_country) <->
           In r (rows d)
           /\ (forall c v, by_sector = Some (c :: v) -> sector r = VStr (c :: v))
           /\ (forall c v, by_country = Some (c :: v) -> country r = VStr (c :: v)))
     /\ ((0 <= default 50 limit <= MAX_LIMIT)%Z ->
         exists l, get_listings d by_sector by_country limit = Ok l)
     /\ (forall l,
           get_listings d by_sector by_country limit = Ok l ->
           newest (Z.to_nat (default 50%Z limit))
                  (matching d by_sector by_country) l))
  /\ (get_latest_listings d = get_listings d None None (Some 10%Z)
      /\ exists l,
           get_latest_listings d = Ok l
           /\ (length l <= 10)%nat /\ newest 10 (rows d) l)
  /\ (forall q,
        (length (search_listings q d) <= 25)%nat
        /\ (forall c q',
              q = c :: q' ->
              newest 25
                (List.filter (fun r => ilike (search_term q) (company_name r))
                             (rows d))
                (search_listings q d))
        /\ (plain (map fold_char q) = true ->
            forall v, ilike (search_term q) v = contains_ci q v)).
Proof.
  split; [|split].
  - intros by_sector by_country limit. split; [reflexivity|]. split; [|split].
    + intros r. unfold matching. rewrite !filter_if_spec. tauto.
    + intros Hn. rewrite get_listings_unfold. cbv zeta.
      destruct (default 50 limit <? 0)%Z eqn:E; [apply Z.ltb_lt in E; lia|].
      destruct (MAX_LIMIT <? default 50 limit)%Z eqn:E';
        [apply Z.ltb_lt in E'; lia|].
      eexists. reflexivity.
    + intros l. rewrite get_listings_unfold. cbv zeta.
      destruct ((default 50 limit <? 0) || (MAX_LIMIT <? default 50 limit))%Z;
        [discriminate|].
      intros [= <-]. apply take_order_newest.
  - split; [reflexivity|].
    unfold get_latest_listings. rewrite get_listings_unfold. cbv zeta.
    eexists. split; [reflexivity|]. split.
    + apply firstn_le_length.
    + apply (take_order_newest 10 10 (rows d)).
  - intros q. split; [|split].
    + destruct q; [apply Nat.le_0_l | apply firstn_le_length].
    + intros c q' ->. apply take_order_newest.
    + intros Hq v. apply ilike_plain, Hq.
Qed.

(** ** More on [clean_text] *)

Lemma strip_nil_blank (s : pystr) : strip s = [] <-> blank s.
Proof.
  split.
  - intros H. destruct (strip_split s) as (l & r & Hs & Hl & Hr & _).
    rewrite H in Hs. rewrite Hs. apply Forall_app. split; assumption.
  - intros H. rewrite <- (app_nil_r s).
    apply (strip_core s [] []); [exact H | constructor | reflexivity].
Qed.

(** X1: [clean_text] answers the empty string, not [None], exactly for a
    text that is not empty and is all whitespace. *)
Theorem clean_text_of_blank_text (s : pystr) :
  clean_text (Some s) = Some [] <-> s <> [] /\ blank s.
Proof.
  destruct s as [|c s]; [split; [discriminate | intros [H _]; congruence]|].
  unfold clean_text. rewrite replace_newlines. split.
  - intros [= H]. apply map_eq_nil in H. apply strip_nil_blank in H.
    split; [discriminate | exact H].
  - intros [_ H]. apply strip_nil_blank in H. rewrite H. reflexivity.
Qed.

Lemma newline_to_space_idempotent (c : N) :
  newline_to_space (newline_to_space c) = newline_to_space c.
Proof.
  unfold newline_to_space. destruct (is_newline c) eqn:E; [reflexivity|].
  rewrite E. reflexivity.
Qed.

(** X2: a non-empty text that [clean_text] returned is left as it is by
    [clean_text]. *)
Theorem clean_text_fixes_its_results (s out : pystr) :
  clean_text (Some s) = Some out -> out <> [] ->
  clean_text (Some out) = Some out.
Proof.
  destruct s as [|c s]; [discriminate|].
  unfold clean_text at 1. rewrite replace_newlines. intros [= <-] Hne.
  destruct (map newline_to_space (strip (c :: s))) as [|x out] eqn:E;
    [congruence|].
  unfold clean_text. rewrite replace_newlines, <- E.
  rewrite strip_map by apply isspace_newline_to_space.
  rewrite strip_idempotent, map_map.
  f_equal. apply map_ext. intros a. apply newline_to_space_idempotent.
Qed.

(** ** More on the extractors *)

(** A page without an [<h1>] gives no item, with either extractor. *)
Lemma no_heading_no_item (url : pystr) (doc : soup) :
  find "h1" doc = None ->
  parse_unlistedzone_page url doc = None
  /\ parse_unlistedarena_page url doc = None.
Proof.
  intros H. unfold parse_unlistedzone_page, zone_try, parse_unlistedarena_page.
  rewrite H. split; reflexivity.
Qed.

Lemma set_price_lookup (it it' : item) (p : option pystr) (k : string) :
  set_price it p = Ok it' ->
  (k <> "last_known_price" -> k <> "price_currency" -> it' !! k = it !! k)
  /\ it' !! "last_known_price" <> None
  /\ it' !! "price_currency" = Some (VStr (str "INR")).
Proof.
  unfold set_price. destruct p as [p|]; [|discriminate].
  destruct (decimal_of_str (clean_price p)) as [d|e]; [|discriminate].
  cbn [mbind result_bind]. intros [= <-]. split; [|split].
  - intros H1 H2. rewrite !lookup_insert_ne by congruence. reflexivity.
  - rewrite lookup_insert_ne by discriminate. rewrite lookup_insert_eq.
    discriminate.
  - apply lookup_insert_eq.
Qed.

Lemma not_in_keys (k : string) (a b c d : string) :
  ~ In k [a; b; c; d] -> k <> a /\ k <> b /\ k <> c /\ k <> d.
Proof. simpl. intros H. repeat split; intros ->; apply H; tauto. Qed.

Lemma Ok_inj {A : Type} (a b : A) : Ok a = Ok b -> a = b.
Proof. intros [= H]. exact H. Qed.

(** One pass of the UnlistedZone loop writes no key but its four, and
    keeps "INR" beside every price. *)
Lemma zone_tag_frame (it it' : item) (tag : found) :
  zone_tag it tag = Ok it' ->
  (forall k, ~ In k zone_keys -> it' !! k = it !! k)
  /\ (price_has_currency it -> price_has_currency it').
Proof.
  unfold zone_tag.
  destruct (clean_text (Some (text (f_children tag)))) as [[|c tag_text]|];
    cbv beta iota; try (intros <-%Ok_inj; split; [reflexivity | tauto]).
  set (next := clean_text (find_next_sibling_text tag)).
  destruct (contains (str "Buy Price") (c :: tag_text)).
  - destruct (set_price it next) as [it1|e] eqn:E; [|discriminate].
    cbn [mbind result_bind]. intros <-%Ok_inj.
    destruct (set_price_lookup it it1 next "sector" E) as (_ & Hp & Hc).
    split.
    + intros k Hk. apply not_in_keys in Hk as (K1 & K2 & K3 & K4).
      destruct (set_price_lookup it it1 next k E) as (Hk & _).
      destruct (contains (str "Sector") (c :: tag_text)),
               (contains (str "Status") (c :: tag_text));
        rewrite ?lookup_insert_ne by congruence; apply Hk; assumption.
    + intros _ _.
      destruct (contains (str "Sector") (c :: tag_text)),
               (contains (str "Status") (c :: tag_text));
        rewrite ?lookup_insert_ne by discriminate; exact Hc.
  - cbn [mbind result_bind]. intros <-%Ok_inj. split.
    + intros k Hk. apply not_in_keys in Hk as (K1 & K2 & K3 & K4).
      destruct (contains (str "Sector") (c :: tag_text)),
               (contains (str "Status") (c :: tag_text));
        rewrite ?lookup_insert_ne by congruence; reflexivity.
    + unfold price_has_currency.
      destruct (contains (str "Sector") (c :: tag_text)),
               (contains (str "Status") (c :: tag_text));
        rewrite ?lookup_insert_ne by discriminate; tauto.
Qed.

Lemma for_each_frame {A : Type} (body : item -> A -> result item)
  (P : item -> item -> Prop) :
  (forall it, P it it) ->
  (forall a b c, P a b -> P b c -> P a c) ->
  (forall it a it', body it a = Ok it' -> P it it') ->
  forall l it it', for_each body l it = Ok it' -> P it it'.
Proof.
  intros Hrefl Htrans Hbody. induction l as [|a l IH]; intros it it'; simpl.
  - intros [= <-]. apply Hrefl.
  - destruct (body it a) as [it1|e] eqn:E; [|discriminate].
    cbn [mbind result_bind]. intros H.
    exact (Htrans _ _ _ (Hbody _ _ _ E) (IH _ _ H)).
Qed.

(** The keys every item of [parse_unlistedzone_page] has. *)
Lemma zone_item_keys (url : pystr) (doc : soup) (it : item) :
  parse_unlistedzone_page url doc = Some it ->
  exists h1,
    find "h1" doc = Some h1
    /\ it !! "source_url" = Some (VStr url)
    /\ it !! "source_name" = Some (VStr (str "UnlistedZone"))
    /\ it !! "company_name" = Some (opt_val (label_text h1))
    /\ price_has_currency it.
Proof.
  unfold parse_unlistedzone_page, zone_try.
  destruct (find "h1" doc) as [h1|]; [|discriminate].
  match goal with
  | |- context [for_each zone_tag ?l ?s] =>
      set (it0 := s); destruct (for_each zone_tag l it0) as [it'|e] eqn:E
  end; [|discriminate].
  intros <-%(inj Some). exists h1. split; [reflexivity|].
  pose proof (for_each_frame zone_tag
    (fun a b => (forall k, ~ In k zone_keys -> b !! k = a !! k)
                /\ (price_has_currency a -> price_has_currency b))) as F.
  destruct (F ltac:(intros a; split; [reflexivity | tauto])
              ltac:(intros a b c [H1 H2] [H3 H4]; split;
                    [intros k Hk; rewrite (H3 k Hk); apply H1, Hk | tauto])
              (fun a tag b => zone_tag_frame a b tag) _ _ _ E) as [Hk Hp].
  assert (Hno : forall k, In k ["source_url"; "source_name"; "company_name"] ->
                          ~ In k zone_keys).
  { intros k Hin Hz. simpl in Hin, Hz.
    repeat destruct Hin as [<-|Hin]; try destruct Hin;
      repeat destruct Hz as [Hz|Hz]; try discriminate; destruct Hz. }
  rewrite !Hk by (apply Hno; simpl; tauto).
  repeat split; try reflexivity.
  apply Hp. intros H. exfalso. apply H. reflexivity.
Qed.

(** X3: whatever [parse_unlistedzone_page] returns has the page's URL, the
    source name "UnlistedZone" and, under "company_name", the cleaned
    text of the first [<h1>], which the page therefore has; and if it has
    a price, its currency is "INR". *)
Theorem zone_item_carries_its_source (url : pystr) (doc : soup) (it : item) :
  parse_unlistedzone_page url doc = Some it ->
  exists h1,
    find "h1" doc = Some h1
    /\ it !! "source_url" = Some (VStr url)
    /\ it !! "source_name" = Some (VStr (str "UnlistedZone"))
    /\ it !! "company_name" = Some (opt_val (label_text h1))
    /\ price_has_currency it.
Proof. exact (zone_item_keys url doc it). Qed.

(** One pass of the UnlistedArena loop, likewise. *)
Lemma arena_row_frame (it it' : item) (row : found) :
  arena_row it row = Ok it' ->
  (forall k, ~ In k arena_keys -> it' !! k = it !! k)
  /\ (price_has_currency it -> price_has_currency it').
Proof.
  unfold arena_row.
  destruct (find_all "td" (f_children row)) as [|c0 [|c1 [|c2 cells]]];
    try (intros <-%Ok_inj; split; [reflexivity | tauto]).
  destruct (clean_text (Some (text (f_children c0)))) as [k0|]; [|discriminate].
  cbv zeta.
  set (value := clean_text (Some (text (f_children c1)))).
  destruct (contains (str "Unlisted Share Price") (replace_char 58 [] k0)).
  { intros E. destruct (set_price_lookup it it' value "sector" E) as (_ & Hp & Hc).
    split; [|intros _ _; exact Hc].
    intros k Hk. apply not_in_keys in Hk as (K1 & K2 & K3 & K4).
    apply (set_price_lookup it it' value k E); assumption. }
  destruct (contains (str "Sector") (replace_char 58 [] k0)).
  { intros <-%Ok_inj. split.
    - intros k Hk. apply not_in_keys in Hk as (K1 & K2 & K3 & K4).
      rewrite lookup_insert_ne by congruence. reflexivity.
    - unfold price_has_currency.
      rewrite !lookup_insert_ne by discriminate. tauto. }
  destruct (contains (str "Face Value") (replace_char 58 [] k0));
    [|intros <-%Ok_inj; split; [reflexivity | tauto]].
  unfold set_face_value.
  destruct (it !! "metadata") as [[| | |m]|]; try discriminate;
    intros <-%Ok_inj; (split;
      [ intros k Hk; apply not_in_keys in Hk as (K1 & K2 & K3 & K4);
        rewrite lookup_insert_ne by congruence; reflexivity
      | unfold price_has_currency;
        rewrite !lookup_insert_ne by discriminate; tauto ]).
Qed.

(** The keys every item of [parse_unlistedarena_page] has. *)
Lemma arena_item_keys (url : pystr) (doc : soup) (it : item) :
  parse_unlistedarena_page url doc = Some it ->
  exists h1,
    find "h1" doc = Some h1
    /\ it !! "source_url" = Some (VStr url)
    /\ it !! "source_name" = Some (VStr (str "UnlistedArena"))
    /\ it !! "company_name" = Some (opt_val (label_text h1))
    /\ price_has_currency it.
Proof.
  unfold parse_unlistedarena_page.
  destruct (find "h1" doc) as [h1|]; [|discriminate].
  set (it0 := <["company_name" := _]> _).
  assert (H0 : it0 !! "source_url" = Some (VStr url)
               /\ it0 !! "source_name" = Some (VStr (str "UnlistedArena"))
               /\ it0 !! "company_name" = Some (opt_val (label_text h1))
               /\ price_has_currency it0).
  { repeat split; try reflexivity.
    intros H. exfalso. apply H. reflexivity. }
  destruct (find_class "table" (str "unlisted-price-table") doc) as [table|].
  - destruct (for_each arena_row (find_all "tr" (f_children table)) it0)
      as [it'|e] eqn:E; [|discriminate].
    intros <-%(inj Some). exists h1. split; [reflexivity|].
    pose proof (for_each_frame arena_row
      (fun a b => (forall k, ~ In k arena_keys -> b !! k = a !! k)
                  /\ (price_has_currency a -> price_has_currency b))) as F.
    destruct (F ltac:(intros a; split; [reflexivity | tauto])
                ltac:(intros a b c [H1 H2] [H3 H4]; split;
                      [intros k Hk; rewrite (H3 k Hk); apply H1, Hk | tauto])
                (fun a row b => arena_row_frame a b row) _ _ _ E) as [Hk Hp].
    assert (Hno : forall k, In k ["source_url"; "source_name"; "company_name"] ->
                            ~ In k arena_keys).
    { intros k Hin Hz. simpl in Hin, Hz.
      repeat destruct Hin as [<-|Hin]; try destruct Hin;
        repeat destruct Hz as [Hz|Hz]; try discriminate; destruct Hz. }
    rewrite !Hk by (apply Hno; simpl; tauto).
    destruct H0 as (A & B & C & D4). repeat split; try assumption.
    apply Hp, D4.
  - intros <-%(inj Some). exists h1. split; [reflexivity | exact H0].
Qed.

(** X4: whatever [parse_unlistedarena_page] returns has the page's URL, the
    source name "UnlistedArena" and, under "company_name", the cleaned
    text of the first [<h1>], which the page therefore has; and if it has
    a price, its currency is "INR". *)
Theorem arena_item_carries_its_source (url : pystr) (doc : soup) (it : item) :
  parse_unlistedarena_page url doc = Some it ->
  exists h1,
    find "h1" doc = Some h1
    /\ it !! "source_url" = Some (VStr url)
    /\ it !! "source_name" = Some (VStr (str "UnlistedArena"))
    /\ it !! "company_name" = Some (opt_val (label_text h1))
    /\ price_has_currency it.
Proof. exact (arena_item_keys url doc it). Qed.

(** ** The shape of the key *)

Lemma round_length (st : list Z) (kw : Z * Z) :
  length st = 8%nat -> length (SHA256.round st kw) = 8%nat.
Proof.
  destruct st as [|a [|b [|c [|d [|e [|f [|g [|h [|i st]]]]]]]]];
    try discriminate. reflexivity.
Qed.

Lemma rounds_length (l : list (Z * Z)) (st : list Z) :
  length st = 8%nat -> length (fold_left SHA256.round l st) = 8%nat.
Proof.
  revert st; induction l as [|kw l IH]; intros st H; [exact H|].
  simpl. apply IH, round_length, H.
Qed.

Lemma compress_length (hs block : list Z) :
  length hs = 8%nat -> length (SHA256.compress hs block) = 8%nat.
Proof.
  intros H. unfold SHA256.compress.
  rewrite length_zip_with, rounds_length by exact H. rewrite H. reflexivity.
Qed.

Lemma process_length (n : nat) (hs bs : list Z) :
  length hs = 8%nat -> length (SHA256.process n hs bs) = 8%nat.
Proof.
  revert hs bs; induction n as [|n IH]; intros hs bs H; [exact H|].
  simpl. destruct bs; [exact H|]. apply IH, compress_length, H.
Qed.

Lemma be_bytes_bytes (n : nat) (x : Z) :
  length (SHA256.be_bytes n x) = n
  /\ Forall (fun b => (0 <= b < 256)%Z) (SHA256.be_bytes n x).
Proof.
  induction n as [|n [IH1 IH2]]; simpl; [split; [reflexivity | constructor]|].
  split; [rewrite IH1; reflexivity|].
  constructor; [apply Z.mod_pos_bound; lia | exact IH2].
Qed.

Lemma digest_bytes (msg : list Z) :
  length (SHA256.digest msg) = 32%nat
  /\ Forall (fun b => (0 <= b < 256)%Z) (SHA256.digest msg).
Proof.
  unfold SHA256.digest. cbv zeta.
  pose proof (process_length (length (SHA256.pad msg)) SHA256.H0
                (SHA256.pad msg) eq_refl) as H.
  revert H. generalize (SHA256.process (length (SHA256.pad msg)) SHA256.H0
                          (SHA256.pad msg)).
  intros ws Hws.
  assert (G : forall l : list Z,
            length (flat_map (SHA256.be_bytes 4) l) = (4 * length l)%nat
            /\ Forall (fun b => (0 <= b < 256)%Z)
                 (flat_map (SHA256.be_bytes 4) l)).
  { induction l as [|w l [IH1 IH2]]; [split; [reflexivity | constructor]|].
    cbn [flat_map]. destruct (be_bytes_bytes 4 w) as [B1 B2]. split.
    - rewrite length_app, B1, IH1. simpl. lia.
    - apply Forall_app. split; assumption. }
  destruct (G ws) as [G1 G2]. rewrite Hws in G1. split; assumption.
Qed.

Lemma hex_digit_is_hex (d : Z) :
  (0 <= d < 16)%Z -> is_hex (SHA256.hex_digit d) = true.
Proof.
  intros H. unfold SHA256.hex_digit, is_hex.
  destruct (d <? 10)%Z eqn:E.
  - apply Z.ltb_lt in E. apply orb_true_iff. left.
    apply andb_true_iff. split; apply N.leb_le; lia.
  - apply Z.ltb_ge in E. apply orb_true_iff. right.
    apply andb_true_iff. split; apply N.leb_le; lia.
Qed.

Lemma hexdigest_shape (msg : list N) :
  length (SHA256.hexdigest msg) = 64%nat
  /\ forallb is_hex (SHA256.hexdigest msg) = true.
Proof.
  unfold SHA256.hexdigest.
  destruct (digest_bytes (map Z.of_N msg)) as [H1 H2].
  revert H1 H2. generalize (SHA256.digest (map Z.of_N msg)). intros bs.
  intros Hlen Hb.
  assert (G : length (flat_map (fun b => [SHA256.hex_digit (b / 16);
                                          SHA256.hex_digit (b mod 16)]) bs)
              = (2 * length bs)%nat
              /\ forallb is_hex
                   (flat_map (fun b => [SHA256.hex_digit (b / 16);
                                        SHA256.hex_digit (b mod 16)]) bs)
                 = true).
  { clear Hlen. induction Hb as [|b bs Hb _ [IH1 IH2]];
      [split; reflexivity|].
    cbn [flat_map app length forallb]. split; [rewrite IH1; lia|].
    rewrite IH2, !hex_digit_is_hex.
    - reflexivity.
    - apply Z.mod_pos_bound. lia.
    - split; [apply Z.div_pos; lia | apply Z.div_lt_upper_bound; lia]. }
  destruct G as [G1 G2]. rewrite Hlen in G1. split; assumption.
Qed.

(** X5: a key is always 64 characters long, each of them a digit or one of
    the letters a to f. *)
Theorem create_unique_hash_is_64_hex (a b : pyval) (h : pystr) :
  create_unique_hash a b = Ok h ->
  length h = 64%nat /\ forallb is_hex h = true.
Proof.
  unfold create_unique_hash.
  destruct a as [|n| |]; try discriminate.
  destruct b as [|u| |]; try discriminate.
  destruct (utf8_encode _) as [bytes|]; [|discriminate].
  intros <-%Ok_inj. apply hexdigest_shape.
Qed.

(** ** Keys that coincide *)

Lemma lower_ascii (s : pystr) :
  forallb is_ascii s = true -> lower s = map ascii_lower s.
Proof. intros H. unfold lower. rewrite H. reflexivity. Qed.

Lemma strip_trimmed (s : pystr) : trimmed s = true -> strip s = s.
Proof.
  intros H. rewrite <- (app_nil_r s) at 1.
  apply (strip_core [] s []); [constructor | constructor | exact H].
Qed.

(** X6: the separator is not kept apart from the fields.  A name that ends
    in "||" and the start of a URL gives, with the rest of the URL, the
    same key as the name alone gives with the whole URL. *)
Theorem separator_in_a_field_collides (x y z : pystr) :
  forallb is_ascii x = true -> forallb is_ascii y = true ->
  forallb is_ascii z = true ->
  trimmed x = true -> trimmed z = true ->
  trimmed (x ++ str "||" ++ y) = true ->
  trimmed (y ++ str "||" ++ z) = true ->
  create_unique_hash (VStr (x ++ str "||" ++ y)) (VStr z)
  = create_unique_hash (VStr x) (VStr (y ++ str "||" ++ z)).
Proof.
  intros Ax Ay Az Tx Tz Txy Tyz. unfold create_unique_hash.
  rewrite !strip_trimmed by assumption.
  rewrite !lower_ascii;
    rewrite ?forallb_app, ?Ax, ?Ay, ?Az; try reflexivity.
  rewrite !map_app, <- !app_assoc. reflexivity.
Qed.

(** ** What [process_and_save] raises and reports *)



(** ** Writing and reading back *)

Lemma find_app_none {A : Type} (f : A -> bool) (l1 l2 : list A) :
  existsb f l1 = false -> List.find f (l1 ++ l2) = List.find f l2.
Proof.
  induction l1 as [|a l1 IH]; simpl; [reflexivity|].
  destruct (f a); [discriminate | exact IH].
Qed.

(** X8: an item that was added is found under its key, with the texts and
    the metadata the item holds, its price in the form the NUMERIC column
    gives it, the time of the commit and the key itself; and saving it
    once more is a skip. *)
Theorem added_item_is_found (t t' : Z) (d d' : db) (it : item) :
  process_and_save t d it = Ok (d', Added) ->
  exists h r,
    dedup_key it = Ok h
    /\ find_by_hash d' h = Some r
    /\ unique_hash r = VStr h
    /\ company_name r = get it "company_name"
    /\ source_url r = get it "source_url"
    /\ source_name r = get it "source_name"
    /\ sector r = get it "sector"
    /\ last_known_price r = stored_price (get it "last_known_price")
    /\ additional_metadata r = get it "metadata"
    /\ retrieved_at r = t
    /\ process_and_save t' d' it = Ok (d', Skipped).
Proof.
  rewrite process_and_save_unfold.
  destruct (dedup_key it) as [h|] eqn:Hk; [|discriminate].
  destruct (has_key h d) eqn:Hd; [discriminate|].
  destruct (it !! "source_name") as [src|] eqn:Hs; [|discriminate].
  cbv zeta. destruct (draft_refused it h); [discriminate|].
  destruct (is_none src); [discriminate|].
  intros H%Ok_inj. pose proof (f_equal fst H) as Hd'. cbn [fst] in Hd'.
  subst d'. clear H.
  eexists h, _.
  assert (Hfind : find_by_hash
            {| rows := rows d
                 ++ [as_stored
                       (new_stock it h (get it "company_name") src
                          (get it "source_url") (id_seq d + 1)%Z t)];
               id_seq := (id_seq d + 1)%Z |} h
          = Some (as_stored
                    (new_stock it h (get it "company_name") src
                       (get it "source_url") (id_seq d + 1)%Z t))).
  { unfold find_by_hash. cbn [rows]. rewrite find_app_none by exact Hd.
    cbn [List.find]. rewrite hash_is_new_stock, list_eqb_refl. reflexivity. }
  split; [reflexivity|]. split; [exact Hfind|].
  repeat (split; [try reflexivity|]).
  - unfold get. rewrite Hs. reflexivity.
  - exact (process_and_save_duplicate t' _ it h _ Hk Hfind).
Qed.

(** X9: an item whose "company_name" is [None], which is what both
    extractors return for an empty heading, makes the save step raise an
    [AttributeError]; the loop catches it and the store stays as it is. *)
Theorem none_company_name_is_caught (w : reply) (d : db) (t : task)
  (body : soup) (it : item) (url : pyval) :
  fetch w = Response 200 body ->
  task_parser t (task_url t) body = Ok (Some it) ->
  it !! "company_name" = Some VNone ->
  it !! "source_url" = Some url ->
  run_task w d t = (d, Caught AttributeError).
Proof.
  intros Hf Hp Hn Hu. unfold run_task. rewrite Hf, Hp. cbn [Z.eqb Pos.eqb].
  destruct (Nat.eqb (size it) 0) eqn:E.
  { apply Nat.eqb_eq, map_size_empty_iff in E. subst it.
    rewrite lookup_empty in Hn. discriminate. }
  rewrite process_and_save_unfold. unfold dedup_key, getitem.
  rewrite Hn, Hu. reflexivity.
Qed.

(** ** What a run does to the store *)

Lemma run_task_appends (w : reply) (d : db) (t : task) :
  exists l,
    rows (fst (run_task w d t)) = rows d ++ l
    /\ length l = (if is_added (snd (run_task w d t)) then 1 else 0)%nat
    /\ (Forall (fun r => required_columns r = true) (rows d) ->
        Forall (fun r => required_columns r = true)
               (rows (fst (run_task w d t)))).
Proof.
  destruct (task_item w t) as [it|] eqn:E.
  - rewrite (run_task_item w d t it E), process_and_save_unfold.
    destruct (dedup_key it) as [h|e] eqn:Hk;
      [|exists []; rewrite app_nil_r; repeat split; tauto].
    destruct (has_key h d);
      [exists []; rewrite app_nil_r; repeat split; tauto|].
    destruct (it !! "source_name") as [src|];
      [|exists []; rewrite app_nil_r; repeat split; tauto].
    cbv zeta. destruct (draft_refused it h);
      [exists []; cbn [fst snd rows]; rewrite app_nil_r; repeat split; tauto|].
    destruct (is_none src) eqn:Hn;
      [exists []; cbn [fst snd rows]; rewrite app_nil_r; repeat split; tauto|].
    eexists [_]. cbn [fst snd rows is_added]. split; [reflexivity|].
    split; [reflexivity|]. intros H. apply Forall_app. split; [exact H|].
    constructor; [|constructor].
    destruct (dedup_key_ok it h Hk) as (n & u & Hcn & Hu).
    unfold required_columns, get. cbn [company_name source_url source_name
      unique_hash new_stock as_stored]. rewrite Hcn, Hu, Hn. reflexivity.
  - destruct (run_task_no_item w d t E) as [Hd Ho]. rewrite Hd.
    exists []. rewrite app_nil_r. split; [reflexivity|]. split; [|tauto].
    destruct (snd (run_task w d t)) as [| | | |[]]; try reflexivity.
    exfalso. exact (Ho Added eq_refl).
Qed.

(** X10: a run only appends.  The rows it finds stay where they are, in
    their order, and it adds one row for each pass that reports an added
    item, and no other. *)
Theorem run_scrapers_only_appends (world : nat -> reply) (tasks : list task)
  (d : db) :
  exists l,
    rows (fst (run_scrapers world tasks d)) = rows d ++ l
    /\ length l = count_added (snd (run_scrapers world tasks d)).
Proof.
  unfold run_scrapers. generalize 0%nat. revert d.
  induction tasks as [|t rest IH]; intros d i.
  - exists []. rewrite app_nil_r. split; reflexivity.
  - rewrite run_from_cons. cbn [fst snd].
    destruct (run_task_appends (world i) d t) as (l1 & H1 & L1 & _).
    destruct (IH (fst (run_task (world i) d t)) (S i)) as (l2 & H2 & L2).
    exists (l1 ++ l2). rewrite H2, H1, app_assoc. split; [reflexivity|].
    rewrite length_app, L1, L2. unfold count_added. cbn [List.filter].
    destruct (is_added (snd (run_task (world i) d t))); reflexivity.
Qed.

Lemma run_from_required (world : nat -> reply) (tasks : list task) (i : nat)
  (d : db) :
  Forall (fun r => required_columns r = true) (rows d) ->
  Forall (fun r => required_columns r = true)
         (rows (fst (run_from world i tasks d))).
Proof.
  revert i d; induction tasks as [|t rest IH]; intros i d H; [exact H|].
  rewrite run_from_cons. cbn [fst]. apply IH.
  destruct (run_task_appends (world i) d t) as (l & _ & _ & Hr). apply Hr, H.
Qed.

(** ** What the read endpoints answer *)

Lemma in_take_order (k : Z) (n : nat) (X : list UnlistedStock)
  (r : UnlistedStock) :
  In r (take n (ordered k X)) -> In r X.
Proof. exact (newest_in n X _ r (take_order_newest k n X)). Qed.

Lemma in_filter_if (x : option pystr) (column : UnlistedStock -> pyval)
  (query : list UnlistedStock) (r : UnlistedStock) :
  In r (filter_if x column query) -> In r query.
Proof. intros H. apply filter_if_spec in H. tauto. Qed.

Lemma get_listings_in_rows (d : db) (by_sector by_country : option pystr)
  (limit : option Z) (l : list UnlistedStock) (r : UnlistedStock) :
  get_listings d by_sector by_country limit = Ok l -> In r l -> In r (rows d).
Proof.
  rewrite get_listings_unfold. cbv zeta.
  destruct ((default 50 limit <? 0) || (MAX_LIMIT <? default 50 limit))%Z;
    [discriminate|].
  intros <-%Ok_inj H. apply in_take_order in H. unfold matching in H.
  apply in_filter_if, in_filter_if in H. exact H.
Qed.

Lemma search_listings_in_rows (q : pystr) (d : db) (r : UnlistedStock) :
  In r (search_listings q d) -> In r (rows d).
Proof.
  destruct q as [|c q]; [intros []|]. unfold search_listings.
  intros H. apply in_take_order, filter_In in H. tauto.
Qed.

(** X11: the required columns are never empty.  If every row of the store
    has a name, a URL, a source name and a key, so has every row after a
    run, and so has every listing that the three endpoints answer from
    it. *)
Theorem answers_have_the_required_columns (world : nat -> reply)
  (tasks : list task) (d : db) :
  Forall (fun r => required_columns r = true) (rows d) ->
  let d' := fst (run_scrapers world tasks d) in
  Forall (fun r => required_columns r = true) (rows d')
  /\ (forall by_sector by_country limit l,
        get_listings d' by_sector by_country limit = Ok l ->
        Forall (fun r => required_columns r = true) l)
  /\ (forall l,
        get_latest_listings d' = Ok l ->
        Forall (fun r => required_columns r = true) l)
  /\ (forall q,
        Forall (fun r => required_columns r = true) (search_listings q d')).
Proof.
  intros H d'.
  assert (H' : Forall (fun r => required_columns r = true) (rows d'))
    by (apply run_from_required, H).
  split; [exact H'|]. rewrite List.Forall_forall in H'.
  split; [|split].
  - intros s c lim l Hl. apply List.Forall_forall. intros r Hr.
    apply H'. exact (get_listings_in_rows d' s c lim l r Hl Hr).
  - intros l Hl. apply List.Forall_forall. intros r Hr.
    apply H'. exact (get_listings_in_rows d' None None (Some 10%Z) l r Hl Hr).
  - intros q. apply List.Forall_forall. intros r Hr.
    apply H'. exact (search_listings_in_rows q d' r Hr).
Qed.

(** Times in descending order are one list, however they were put in
    order. *)
Lemma descending_unique (l1 l2 : list Z) :
  StronglySorted Z.ge l1 -> StronglySorted Z.ge l2 -> Permutation l1 l2 ->
  l1 = l2.
Proof.
  intros H1. revert l2. induction H1 as [|a l1 Hs1 IH Ha]; intros l2 H2 Hp.
  - apply Permutation_nil in Hp. congruence.
  - destruct H2 as [|b l2 Hs2 Hb].
    { symmetry in Hp. apply Permutation_nil in Hp. discriminate. }
    assert (a = b).
    { rewrite List.Forall_forall in Ha, Hb.
      assert (Hba : In b (a :: l1))
        by (eapply Permutation_in; [symmetry; exact Hp | left; reflexivity]).
      assert (Hab : In a (b :: l2))
        by (eapply Permutation_in; [exact Hp | left; reflexivity]).
      destruct Hba as [Hba|Hba]; [congruence|].
      destruct Hab as [Hab|Hab]; [congruence|].
      specialize (Ha b Hba). specialize (Hb a Hab). lia. }
    subst b. f_equal. apply IH; [exact Hs2|].
    exact (Permutation_cons_inv Hp).
Qed.

Lemma sorted_times (l : list UnlistedStock) :
  StronglySorted newer_or_same l ->
  StronglySorted Z.ge (map retrieved_at l).
Proof.
  induction 1 as [|a l Hs IH Ha]; [constructor|].
  cbn [map]. constructor; [exact IH|].
  apply Forall_map. eapply Forall_impl; [exact Ha|].
  unfold newer_or_same. intros x Hx. cbn. lia.
Qed.

(** Two orderings of the same rows show the same times, and the same rows
    when no two rows have the same time. *)
Lemma ordered_times (k1 k2 : Z) (X : list UnlistedStock) :
  map retrieved_at (ordered k1 X) = map retrieved_at (ordered k2 X).
Proof.
  apply descending_unique; try (apply sorted_times, ordered_sorted).
  apply Permutation_map. rewrite !ordered_perm. reflexivity.
Qed.

Lemma same_times_same_rows (l1 l2 : list UnlistedStock) :
  Permutation l1 l2 ->
  map retrieved_at l1 = map retrieved_at l2 ->
  NoDup (map retrieved_at l1) ->
  l1 = l2.
Proof.
  revert l2. induction l1 as [|a l1 IH]; intros l2 Hp Ht Hn.
  - apply Permutation_nil in Hp. congruence.
  - destruct l2 as [|b l2]; [discriminate|].
    cbn [map] in Ht, Hn. injection Ht as Hab Ht.
    apply NoDup_cons in Hn as [Ha Hn].
    assert (a = b).
    { assert (Hin : In a (b :: l2))
        by (eapply Permutation_in; [exact Hp | left; reflexivity]).
      destruct Hin as [Hin|Hin]; [congruence|].
      exfalso. apply Ha. rewrite Ht. apply list_elem_of_In.
      apply in_map, Hin. }
    subst b. f_equal. apply IH; [exact (Permutation_cons_inv Hp)|exact Ht|exact Hn].
Qed.

Lemma ordered_unique (k1 k2 : Z) (X : list UnlistedStock) :
  NoDup (map retrieved_at X) -> ordered k1 X = ordered k2 X.
Proof.
  intros Hn. apply same_times_same_rows.
  - rewrite !ordered_perm. reflexivity.
  - apply ordered_times.
  - assert (Hp : Permutation (map retrieved_at (ordered k1 X))
                             (map retrieved_at X))
      by apply Permutation_map, ordered_perm.
    rewrite Hp. exact Hn.
Qed.

(** X12: the most-recent view and the first ten listings of the broad
    query made without filters and without a limit show the same retrieval
    times, place by place; and they are the same listings when no two rows
    of the store have the same retrieval time. *)
Theorem latest_is_the_head_of_the_broad_query (d : db) :
  exists broad latest,
    get_listings d None None None = Ok broad
    /\ get_latest_listings d = Ok latest
    /\ map retrieved_at latest = take 10 (map retrieved_at broad)
    /\ (NoDup (map retrieved_at (rows d)) -> latest = take 10 broad).
Proof.
  unfold get_latest_listings. rewrite !get_listings_unfold. cbv zeta.
  cbn [default Z.ltb Z.compare orb].
  change (matching d None None) with (rows d).
  eexists _, _. split; [reflexivity|]. split; [reflexivity|].
  change (Z.to_nat 10) with 10%nat. change (Z.to_nat 50) with 50%nat.
  split.
  - rewrite <- !fmap_take. rewrite take_take. change (10 `min` 50)%nat with 10%nat.
    rewrite !fmap_take. f_equal. apply ordered_times.
  - intros Hn. rewrite take_take. change (10 `min` 50)%nat with 10%nat.
    f_equal. apply ordered_unique, Hn.
Qed.

Lemma fold_search_term (q : pystr) :
  map fold_char (search_term q) = search_term (map fold_char q).
Proof. unfold search_term. rewrite !map_app. reflexivity. Qed.

(** X13: the letter case of the query does not matter to the search. *)
Theorem search_ignores_the_case_of_the_query (q1 q2 : pystr) (d : db) :
  map fold_char q1 = map fold_char q2 ->
  search_listings q1 d = search_listings q2 d.
Proof.
  intros H. destruct q1 as [|c1 q1], q2 as [|c2 q2]; try discriminate;
    [reflexivity|].
  unfold search_listings. f_equal. f_equal.
  apply filter_ext. intros r. unfold ilike.
  destruct (company_name r); try reflexivity.
  rewrite !fold_search_term, H. reflexivity.
Qed.

Lemma newest_all (n : nat) (X l : list UnlistedStock) :
  newest n X l -> (length X <= n)%nat -> Permutation l X.
Proof.
  intros (_ & Hlen & rest & Hp & _) Hn.
  assert (Hr : rest = []).
  { apply Permutation_length in Hp. rewrite length_app in Hp.
    destruct rest; [reflexivity|]. simpl in Hp. lia. }
  subst rest. rewrite app_nil_r in Hp. exact Hp.
Qed.

(** X14: below the limit nothing is left out.  When no more rows pass the
    filters than the limit allows, the broad query answers all of them;
    when no more than 25 names match, the search answers all of those. *)
Theorem nothing_is_left_out_below_the_limit (d : db) :
  (forall by_sector by_country limit l,
     get_listings d by_sector by_country limit = Ok l ->
     (length (matching d by_sector by_country)
      <= Z.to_nat (default 50%Z limit))%nat ->
     Permutation l (matching d by_sector by_country))
  /\ (forall c q,
        (length (List.filter
                   (fun r => ilike (search_term (c :: q)) (company_name r))
                   (rows d)) <= 25)%nat ->
        Permutation (search_listings (c :: q) d)
          (List.filter (fun r => ilike (search_term (c :: q)) (company_name r))
                       (rows d))).
Proof.
  split.
  - intros s c lim l. rewrite get_listings_unfold. cbv zeta.
    destruct ((default 50 lim <? 0) || (MAX_LIMIT <? default 50 lim))%Z;
      [discriminate|].
    intros <-%Ok_inj Hn. eapply newest_all; [apply take_order_newest | exact Hn].
  - intros c q Hn. unfold search_listings.
    eapply newest_all; [apply take_order_newest | exact Hn].
Qed.

(** ** Labels that are missing *)

Lemma zone_tag_missing_label (it it' : item) (tag : found) :
  zone_tag it tag = Ok it' ->
  (has_label "Sector" tag = false -> it' !! "sector" = it !! "sector")
  /\ (has_label "Status" tag = false -> it' !! "status" = it !! "status")
  /\ (has_label "Buy Price" tag = false ->
      it' !! "last_known_price" = it !! "last_known_price"
      /\ it' !! "price_currency" = it !! "price_currency").
Proof.
  unfold zone_tag, has_label, label_text.
  destruct (clean_text (Some (text (f_children tag)))) as [[|c tag_text]|];
    cbv beta iota; try (intros <-%Ok_inj; repeat split; reflexivity).
  set (next := clean_text (find_next_sibling_text tag)).
  destruct (contains (str "Buy Price") (c :: tag_text)).
  - destruct (set_price it next) as [it1|e] eqn:E; [|discriminate].
    cbn [mbind result_bind]. intros <-%Ok_inj.
    split; [|split; [|discriminate]].
    + intros ->. destruct (contains (str "Status") (c :: tag_text));
        rewrite ?lookup_insert_ne by discriminate;
        apply (set_price_lookup it it1 next "sector" E); discriminate.
    + intros ->. destruct (contains (str "Sector") (c :: tag_text));
        rewrite ?lookup_insert_ne by discriminate;
        apply (set_price_lookup it it1 next "status" E); discriminate.
  - cbn [mbind result_bind]. intros <-%Ok_inj. split; [|split].
    + intros ->. destruct (contains (str "Status") (c :: tag_text));
        rewrite ?lookup_insert_ne by discriminate; reflexivity.
    + intros ->. destruct (contains (str "Sector") (c :: tag_text));
        rewrite ?lookup_insert_ne by discriminate; reflexivity.
    + intros _.
      destruct (contains (str "Sector") (c :: tag_text)),
               (contains (str "Status") (c :: tag_text));
        rewrite ?lookup_insert_ne by discriminate; split; reflexivity.
Qed.

Lemma zone_tags_missing_label (w k : string) (tags : list found)
  (it it' : item) :
  (forall a b tag, zone_tag a tag = Ok b -> has_label w tag = false ->
                   b !! k = a !! k) ->
  Forall (fun tag => has_label w tag = false) tags ->
  for_each zone_tag tags it = Ok it' -> it' !! k = it !! k.
Proof.
  intros Hstep H. revert it. induction H as [|tag tags Htag _ IH]; intros it.
  - intros <-%Ok_inj. reflexivity.
  - simpl. destruct (zone_tag it tag) as [it1|e] eqn:E; [|discriminate].
    cbn [mbind result_bind]. intros H. rewrite (IH _ H).
    exact (Hstep _ _ _ E Htag).
Qed.

(** X15: a field whose label is not on the page is left out of the item:
    without a "Sector" label the item that [parse_unlistedzone_page]
    returns has no "sector" key, without a "Status" label no "status" key,
    and without a "Buy Price" label neither a price nor a currency; and a
    page with a heading and no "Buy Price" label always gives an item. *)
Theorem missing_labels_leave_keys_out (url : pystr) (doc : soup) :
  (forall it,
     parse_unlistedzone_page url doc = Some it ->
     (Forall (fun tag => has_label "Sector" tag = false)
             (find_all "strong" doc) -> it !! "sector" = None)
     /\ (Forall (fun tag => has_label "Status" tag = false)
                (find_all "strong" doc) -> it !! "status" = None)
     /\ (Forall (fun tag => has_label "Buy Price" tag = false)
                (find_all "strong" doc) ->
         it !! "last_known_price" = None /\ it !! "price_currency" = None))
  /\ (find "h1" doc <> None ->
      Forall (fun tag => has_label "Buy Price" tag = false)
             (find_all "strong" doc) ->
      parse_unlistedzone_page url doc <> None).
Proof.
  split.
  - intros it. unfold parse_unlistedzone_page, zone_try.
    destruct (find "h1" doc) as [h1|]; [|discriminate].
    match goal with
    | |- context [for_each zone_tag ?l ?s] =>
        set (it0 := s); destruct (for_each zone_tag l it0) as [it'|e] eqn:E
    end; [|discriminate].
    intros <-%(inj Some).
    split; [|split].
    + intros H. rewrite (zone_tags_missing_label "Sector" "sector" _ _ _
        (fun a b tag Hz => proj1 (zone_tag_missing_label a b tag Hz)) H E).
      reflexivity.
    + intros H. rewrite (zone_tags_missing_label "Status" "status" _ _ _
        (fun a b tag Hz => proj1 (proj2 (zone_tag_missing_label a b tag Hz)))
        H E).
      reflexivity.
    + intros H. split.
      * rewrite (zone_tags_missing_label "Buy Price" "last_known_price" _ _ _
          (fun a b tag Hz Hl =>
             proj1 (proj2 (proj2 (zone_tag_missing_label a b tag Hz)) Hl))
          H E).
        reflexivity.
      * rewrite (zone_tags_missing_label "Buy Price" "price_currency" _ _ _
          (fun a b tag Hz Hl =>
             proj2 (proj2 (proj2 (zone_tag_missing_label a b tag Hz)) Hl))
          H E).
        reflexivity.
  - intros Hh1 H. unfold parse_unlistedzone_page, zone_try.
    destruct (find "h1" doc) as [h1|]; [|congruence].
    match goal with
    | |- context [for_each zone_tag ?l ?s] =>
        destruct (zone_tags_other l s H) as (it' & -> & _)
    end.
    discriminate.
Qed.

(** ** The price table *)

Lemma arena_other_row_ok (it : item) (row : found) :
  arena_other_row row = true -> metadata_is_dict it ->
  exists it',
    arena_row it row = Ok it'
    /\ it' !! "last_known_price" = it !! "last_known_price"
    /\ it' !! "price_currency" = it !! "price_currency"
    /\ metadata_is_dict it'.
Proof.
  unfold arena_other_row, arena_row, label_text.
  destruct (find_all "td" (f_children row)) as [|c0 [|c1 [|c2 cells]]];
    try (intros _ Hm; exists it; repeat split; assumption).
  destruct (clean_text (Some (text (f_children c0)))) as [k0|]; [|discriminate].
  cbv zeta. intros H%negb_true_iff Hm. rewrite H.
  destruct (contains (str "Sector") (replace_char 58 [] k0)).
  { eexists. split; [reflexivity|]. unfold metadata_is_dict.
    rewrite !lookup_insert_ne by discriminate. repeat split. exact Hm. }
  destruct (contains (str "Face Value") (replace_char 58 [] k0));
    [|exists it; repeat split; assumption].
  unfold set_face_value, metadata_is_dict in *.
  destruct (it !! "metadata") as [[| | |m]|]; try contradiction;
    (eexists; split; [reflexivity|];
     rewrite !lookup_insert_ne by discriminate; rewrite lookup_insert_eq;
     repeat split).
Qed.

Lemma arena_other_rows_ok (rows0 : list found) (it : item) :
  Forall (fun row => arena_other_row row = true) rows0 ->
  metadata_is_dict it ->
  exists it',
    for_each arena_row rows0 it = Ok it'
    /\ it' !! "last_known_price" = it !! "last_known_price"
    /\ it' !! "price_currency" = it !! "price_currency"
    /\ metadata_is_dict it'.
Proof.
  intros H. revert it. induction H as [|row rows0 Hrow _ IH]; intros it Hm.
  - exists it. repeat split. exact Hm.
  - destruct (arena_other_row_ok it row Hrow Hm) as (it1 & E & P1 & P2 & M1).
    destruct (IH it1 M1) as (it2 & E2 & P3 & P4 & M2).
    exists it2. simpl. rewrite E. cbn [mbind result_bind].
    rewrite P3, P4. repeat split; assumption.
Qed.

Lemma arena_price_row_ok (it : item) (row c0 c1 : found) (d : Decimal)
  (p : pystr) :
  arena_price_row row = true ->
  find_all "td" (f_children row) = [c0; c1] ->
  label_text c1 = Some p ->
  decimal_of_str (clean_price p) = Ok d ->
  metadata_is_dict it ->
  exists it',
    arena_row it row = Ok it'
    /\ it' !! "last_known_price" = Some (VDecimal d)
    /\ it' !! "price_currency" = Some (VStr (str "INR"))
    /\ metadata_is_dict it'.
Proof.
  unfold arena_price_row, arena_row, label_text. intros H Htd. rewrite Htd in *.
  destruct (clean_text (Some (text (f_children c0)))) as [k0|]; [|discriminate].
  cbv zeta. rewrite H. intros -> Hd Hm. unfold set_price. rewrite Hd.
  eexists. split; [reflexivity|]. unfold metadata_is_dict.
  rewrite !(lookup_insert_ne _ _ "metadata") by discriminate.
  split; [|split; [apply lookup_insert_eq | exact Hm]].
  rewrite lookup_insert_ne by discriminate. apply lookup_insert_eq.
Qed.

(** X16: on an UnlistedArena page with a heading and a price table that
    has one "Unlisted Share Price" row, whose second cell reads
    "₹ 1,234.50", and otherwise rows that are read as something else or
    passed over, the extractor returns an item with the price 1234.50 and
    the currency "INR". *)
Theorem arena_price_is_parsed (url : pystr) (doc : soup) (h1 table : found)
  (pre post : list found) (row c0 c1 : found) :
  find "h1" doc = Some h1 ->
  find_class "table" (str "unlisted-price-table") doc = Some table ->
  find_all "tr" (f_children table) = pre ++ row :: post ->
  Forall (fun r => arena_other_row r = true) (pre ++ post) ->
  arena_price_row row = true ->
  find_all "td" (f_children row) = [c0; c1] ->
  label_text c1 = Some PRICE_TEXT ->
  exists it,
    parse_unlistedarena_page url doc = Some it
    /\ it !! "last_known_price" = Some (VDecimal (Finite false 123450 (-2)))
    /\ it !! "price_currency" = Some (VStr (str "INR")).
Proof.
  intros Hh1 Htable Hrows Hothers Hrow Htd Hp.
  apply Forall_app in Hothers as [Hpre Hpost].
  unfold parse_unlistedarena_page. rewrite Hh1, Htable, Hrows.
  rewrite for_each_app.
  match goal with
  | |- context [for_each arena_row pre ?s] =>
      destruct (arena_other_rows_ok pre s Hpre) as (it1 & -> & _ & _ & M1)
  end.
  { unfold metadata_is_dict. rewrite !lookup_insert_ne by discriminate.
    rewrite lookup_singleton_ne by discriminate. exact I. }
  cbn [mbind result_bind for_each].
  destruct (arena_price_row_ok it1 row c0 c1 (Finite false 123450 (-2))
              PRICE_TEXT Hrow Htd Hp decimal_of_price_text M1)
    as (it2 & E2 & P1 & P2 & M2).
  rewrite E2. cbn [mbind result_bind].
  destruct (arena_other_rows_ok post it2 Hpost M2) as (it3 & -> & E3 & E4 & _).
  exists it3. split; [reflexivity|]. rewrite E3, E4. split; assumption.
Qed.

(** ** The configured tasks *)





End Properties.

(** * The properties on the sample inputs *)

(** On "a\n\nb" the code gives "a  b", with two spaces, where collapsing
    the run would give "a b". *)
Lemma clean_text_keeps_run_length :
  clean_text (Some [97; 10; 10; 98]) = Some [97; 32; 32; 98]
  /\ collapse_newline_runs false (strip [97; 10; 10; 98]) = [97; 32; 98]
  /\ clean_text (Some [97; 10; 10; 98])
     <> Some (collapse_newline_runs false (strip [97; 10; 10; 98])).
Proof. repeat split; try reflexivity. vm_compute. discriminate. Qed.

(** The letters of two texts are compared place by place. *)
Ltac same_letters :=
  lazymatch goal with
  | |- Forall2 same_letter ?a ?b =>
      let a' := eval vm_compute in a in
      let b' := eval vm_compute in b in
      change (Forall2 same_letter a' b');
      repeat first
        [ apply List.Forall2_nil
        | apply List.Forall2_cons;
          [ first [ left; reflexivity
                  | right; left; split; reflexivity
                  | right; right; split; reflexivity ] | ] ]
  end.

Lemma acme_same_but_case_and_blanks :
  same_but_case_and_blanks (str "Acme Corp") (str "  acme corp  ").
Proof.
  exists [], (str "Acme Corp"), [], (str "  "), (str "acme corp"), (str "  ").
  repeat apply conj; try reflexivity; try same_letters; repeat constructor.
Qed.

Lemma url_same_but_case_and_blanks :
  same_but_case_and_blanks (str "http://X/a") (str "HTTP://X/A").
Proof.
  exists [], (str "http://X/a"), [], [], (str "HTTP://X/A"), [].
  repeat apply conj; try reflexivity; try same_letters; repeat constructor.
Qed.

(** [create_unique_hash("Acme Corp", "http://X/a")] and
    [create_unique_hash("  acme corp  ", "HTTP://X/A")] are the same key. *)
Lemma create_unique_hash_acme :
  create_unique_hash (U:=ascii_tables) (VStr (str "Acme Corp")) (VStr (str "http://X/a"))
  = create_unique_hash (U:=ascii_tables) (VStr (str "  acme corp  "))
      (VStr (str "HTTP://X/A")).
Proof.
  exact (proj1 (create_unique_hash_ignores_ascii_case_and_blanks ascii_tables
                  (str "Acme Corp") (str "  acme corp  ")
                  (str "http://X/a") (str "HTTP://X/A")
                  eq_refl eq_refl eq_refl eq_refl
                  acme_same_but_case_and_blanks
                  url_same_but_case_and_blanks)).
Defined.

(** The Greek word for "street" in capitals and in small letters: the two
    texts are the same letters in different cases, [str.lower] ends the
    first with a final sigma and leaves the second as it is, and the keys
    differ. *)
Lemma greek_case_variants_get_two_keys :
  same_but_case_and_blanks ODOS_CAPITALS ODOS_SMALL
  /\ lower (U:=greek_tables) ODOS_CAPITALS = [959; 948; 959; 962]
  /\ lower (U:=greek_tables) ODOS_SMALL = [959; 948; 959; 963]
  /\ create_unique_hash (U:=greek_tables) (VStr ODOS_CAPITALS)
       (VStr (str "http://x/a"))
     = Ok (str "5001a4874c053aecb010b2489f9d0bfbe4568449fafa84a7e23acb95fa42b104")
  /\ create_unique_hash (U:=greek_tables) (VStr ODOS_SMALL)
       (VStr (str "http://x/a"))
     = Ok (str "e66143a8570e15fbe057c238a249907b6aaafde840360b00898cf6886d3dbc69")
  /\ create_unique_hash (U:=greek_tables) (VStr ODOS_CAPITALS)
       (VStr (str "http://x/a"))
     <> create_unique_hash (U:=greek_tables) (VStr ODOS_SMALL)
          (VStr (str "http://x/a")).
Proof.
  apply conj.
  { exists [], ODOS_CAPITALS, [], [], ODOS_SMALL, [].
    repeat apply conj; try reflexivity; try same_letters;
      repeat constructor. }
  repeat apply conj; try (vm_compute; reflexivity).
  vm_compute. discriminate.
Qed.

(** The sample UnlistedZone page with the price of the specification. *)
Lemma zone_page_price :
  exists it,
    parse_unlistedzone_page (U:=ascii_tables) ZONE_URL (zone_page PRICE_TEXT)
      = Some it
    /\ it !! "last_known_price" = Some (VDecimal (Finite false 123450 (-2)))
    /\ it !! "price_currency" = Some (VStr (str "INR")).
Proof.
  apply (buy_price_text_is_parsed ascii_tables ZONE_URL (zone_page PRICE_TEXT)
           {| f_classes := [];
              f_children := [NText (str " HDB Financial Services ")];
              f_next_siblings :=
                [ NTag "p" [] [label "Buy Price:"; NText PRICE_TEXT];
                  NTag "p" [] [label "Sector:"; NText (str " NBFC ")];
                  NTag "p" [] [label "Status:"] ] |}
           []
           [ strong_tag "Sector:" [NText (str " NBFC ")];
             strong_tag "Status:" [] ]
           (strong_tag "Buy Price:" [NText PRICE_TEXT])).
  - reflexivity.
  - reflexivity.
  - repeat constructor.
  - reflexivity.
  - reflexivity.
Defined.

(** With "N/A" for a price the sample pages give no item at all, although
    the heading, the sector and the rest are there; with a price that
    parses the same pages give one. *)
Lemma bad_price_loses_the_item :
  decimal_of_str (U:=ascii_tables) (clean_price (str "N/A")) = Raise InvalidOperation
  /\ parse_unlistedzone_page (U:=ascii_tables) ZONE_URL (zone_page (str "N/A")) = None
  /\ parse_unlistedarena_page (U:=ascii_tables) ARENA_URL (arena_page (str "N/A")) = None
  /\ parse_unlistedzone_page (U:=ascii_tables) ZONE_URL (zone_page PRICE_TEXT) <> None
  /\ parse_unlistedarena_page (U:=ascii_tables) ARENA_URL (arena_page PRICE_TEXT) <> None.
Proof. repeat split; try reflexivity; vm_compute; discriminate. Qed.

Lemma unparseable_price_on_sample_pages :
  parse_unlistedzone_page (U:=ascii_tables) ZONE_URL (zone_page (str "on request"))
    = None
  /\ parse_unlistedarena_page (U:=ascii_tables) ARENA_URL
       (arena_page (str "on request")) = None.
Proof.
  split.
  - apply (proj1 (unparseable_price_discards_the_item ascii_tables ZONE_URL
                    (zone_page (str "on request")))
             (strong_tag "Buy Price:" [NText (str "on request")])
             (str "on request") InvalidOperation).
    + left. reflexivity.
    + reflexivity.
    + reflexivity.
    + reflexivity.
  - apply (proj2 (unparseable_price_discards_the_item ascii_tables ARENA_URL
                    (arena_page (str "on request")))
             {| f_classes := [str "table"; str "unlisted-price-table"];
                f_children :=
                  [ NTag "tr" [] [cell (str "Unlisted Share Price:");
                                  cell (str "on request")];
                    NTag "tr" [] [cell (str "Sector"); cell (str "Finance")];
                    NTag "tr" [] [cell (str "Face Value"); cell (str "10")] ];
                f_next_siblings := [] |}
             {| f_classes := [];
                f_children := [cell (str "Unlisted Share Price:");
                               cell (str "on request")];
                f_next_siblings :=
                  [ NTag "tr" [] [cell (str "Sector"); cell (str "Finance")];
                    NTag "tr" [] [cell (str "Face Value"); cell (str "10")] ] |}
             (td_tag (str "Unlisted Share Price:") [cell (str "on request")])
             (td_tag (str "on request") [])
             (str "Unlisted Share Price:") (str "on request") InvalidOperation).
    + reflexivity.
    + left. reflexivity.
    + reflexivity.
    + reflexivity.
    + reflexivity.
    + reflexivity.
    + reflexivity.
Defined.

(** An item without status, currency and country is written with
    "Pre-IPO", "INR" and "India". *)
Lemma bare_item_gets_defaults :
  process_and_save (U:=ascii_tables) (D:=example_database) 1000 empty_db bare_item
    = Ok (saved 1000 empty_db bare_item, Added)
  /\ exists r,
       rows (saved 1000 empty_db bare_item) = rows empty_db ++ [r]
       /\ status r = VStr (str "Pre-IPO")
       /\ price_currency r = VStr (str "INR")
       /\ country r = VStr (str "India").
Proof.
  assert (H : process_and_save (U:=ascii_tables) (D:=example_database) 1000 empty_db bare_item
              = Ok (saved 1000 empty_db bare_item, Added))
    by (vm_compute; reflexivity).
  split; [exact H|].
  exact (defaults_fill_only_missing_keys ascii_tables example_database 1000 empty_db _ bare_item H).
Defined.

(** The sample page has a "Status" label with nothing after it: the item
    binds "status" to [None] and the row is written with a NULL status. *)
Lemma zone_item_status_is_null :
  zone_item !! "status" = Some VNone
  /\ process_and_save (U:=ascii_tables) (D:=example_database) 1000 empty_db zone_item
     = Ok (saved 1000 empty_db zone_item, Added)
  /\ exists r,
       rows (saved 1000 empty_db zone_item) = rows empty_db ++ [r]
       /\ status r = VNone.
Proof.
  assert (Hs : zone_item !! "status" = Some VNone) by (vm_compute; reflexivity).
  assert (H : process_and_save (U:=ascii_tables) (D:=example_database) 1000 empty_db zone_item
              = Ok (saved 1000 empty_db zone_item, Added))
    by (vm_compute; reflexivity).
  split; [exact Hs|]. split; [exact H|].
  destruct (none_valued_keys_are_not_defaulted ascii_tables example_database 1000 empty_db _
              zone_item H) as (r & Hr & Hstatus & _).
  exists r. split; [exact Hr | exact (Hstatus Hs)].
Defined.








(** Asking for sector "Finance" and country "India" answers the two
    listings that have both, the newer one first. *)
Lemma finance_in_india :
  get_listings (D:=example_database) four_listings FINANCE INDIA None
  = Ok (answer (get_listings (D:=example_database) four_listings FINANCE INDIA None))
  /\ newest 50 (matching four_listings FINANCE INDIA)
       (answer (get_listings (D:=example_database) four_listings FINANCE INDIA None))
  /\ map company_name (answer (get_listings (D:=example_database) four_listings FINANCE INDIA None))
     = [VStr (str "Delta Lending"); VStr (str "Acme Finance")].
Proof.
  assert (H : get_listings (D:=example_database) four_listings FINANCE INDIA None
              = Ok (answer (get_listings (D:=example_database) four_listings FINANCE INDIA None)))
    by (vm_compute; reflexivity).
  apply conj; [exact H|]. apply conj; [|vm_compute; reflexivity].
  destruct (read_endpoints_answer ascii_tables example_database four_listings) as (Hq & _ & _).
  destruct (Hq FINANCE INDIA None) as (_ & _ & _ & Hnew).
  exact (Hnew _ H).
Defined.

(** The query "_" finds all four listings, and none of their names has an
    underscore in it. *)
Lemma search_underscore_finds_all :
  length (search_listings (U:=ascii_tables) (D:=example_database) (str "_") four_listings) = 4%nat
  /\ forallb (fun r => negb (contains_ci (U:=ascii_tables) (str "_") (company_name r)))
       (search_listings (U:=ascii_tables) (D:=example_database) (str "_") four_listings) = true
  /\ map company_name (search_listings (U:=ascii_tables) (D:=example_database) (str "e_t") four_listings)
     = [VStr (str "Delta Lending"); VStr (str "Crest Capital")].
Proof. repeat apply conj; vm_compute; reflexivity. Qed.

(** ** Further properties on the sample inputs *)

Lemma clean_text_of_spaces : clean_text (Some (str "   ")) = Some [].
Proof.
  apply (proj2 (clean_text_of_blank_text (str "   "))).
  split; [discriminate | repeat constructor].
Defined.

Lemma clean_text_twice :
  clean_text (Some [32; 97; 10; 98; 32]) = Some [97; 32; 98]
  /\ clean_text (Some [97; 32; 98]) = Some [97; 32; 98].
Proof.
  assert (H : clean_text (Some [32; 97; 10; 98; 32]) = Some [97; 32; 98])
    by reflexivity.
  apply conj; [exact H|].
  apply (clean_text_fixes_its_results [32; 97; 10; 98; 32] [97; 32; 98] H).
  discriminate.
Defined.

Lemma zone_item_parsed :
  parse_unlistedzone_page (U:=ascii_tables) ZONE_URL (zone_page PRICE_TEXT)
  = Some zone_item.
Proof. vm_compute. reflexivity. Qed.

Lemma arena_item_parsed :
  parse_unlistedarena_page (U:=ascii_tables) ARENA_URL (arena_page PRICE_TEXT)
  = Some arena_item.
Proof. vm_compute. reflexivity. Qed.

Lemma zone_item_source :
  exists h1,
    find "h1" (zone_page PRICE_TEXT) = Some h1
    /\ zone_item !! "source_url" = Some (VStr ZONE_URL)
    /\ zone_item !! "source_name" = Some (VStr (str "UnlistedZone"))
    /\ zone_item !! "company_name" = Some (opt_val (label_text h1))
    /\ price_has_currency zone_item.
Proof.
  exact (zone_item_carries_its_source ascii_tables ZONE_URL
           (zone_page PRICE_TEXT) zone_item zone_item_parsed).
Defined.

Lemma arena_item_source :
  exists h1,
    find "h1" (arena_page PRICE_TEXT) = Some h1
    /\ arena_item !! "source_url" = Some (VStr ARENA_URL)
    /\ arena_item !! "source_name" = Some (VStr (str "UnlistedArena"))
    /\ arena_item !! "company_name" = Some (opt_val (label_text h1))
    /\ price_has_currency arena_item.
Proof.
  exact (arena_item_carries_its_source ascii_tables ARENA_URL
           (arena_page PRICE_TEXT) arena_item arena_item_parsed).
Defined.

Lemma acme_key_computed :
  create_unique_hash (U:=ascii_tables) (VStr (str "Acme Corp"))
    (VStr (str "http://X/a")) = Ok acme_key.
Proof. vm_compute. reflexivity. Qed.

Lemma acme_key_is_64_hex :
  length acme_key = 64%nat /\ forallb is_hex acme_key = true.
Proof.
  exact (create_unique_hash_is_64_hex ascii_tables _ _ acme_key
           acme_key_computed).
Defined.

Lemma acme_keys_collide :
  create_unique_hash (U:=ascii_tables)
    (VStr (str "Acme" ++ str "||" ++ str "https://x.in/"))
    (VStr (str "https://y.in/a"))
  = create_unique_hash (U:=ascii_tables) (VStr (str "Acme"))
      (VStr (str "https://x.in/" ++ str "||" ++ str "https://y.in/a")).
Proof.
  apply (separator_in_a_field_collides ascii_tables (str "Acme")
           (str "https://x.in/") (str "https://y.in/a")); reflexivity.
Defined.


Lemma bare_item_added :
  process_and_save (U:=ascii_tables) (D:=example_database) 1000 empty_db bare_item
  = Ok (saved 1000 empty_db bare_item, Added).
Proof. vm_compute. reflexivity. Qed.

Lemma bare_item_is_found :
  exists h r,
    dedup_key (U:=ascii_tables) bare_item = Ok h
    /\ find_by_hash (saved 1000 empty_db bare_item) h = Some r
    /\ unique_hash r = VStr h
    /\ company_name r = get bare_item "company_name"
    /\ source_url r = get bare_item "source_url"
    /\ source_name r = get bare_item "source_name"
    /\ sector r = get bare_item "sector"
    /\ last_known_price r
       = stored_price (D:=example_database) (get bare_item "last_known_price")
    /\ additional_metadata r = get bare_item "metadata"
    /\ retrieved_at r = 1000%Z
    /\ process_and_save (U:=ascii_tables) (D:=example_database) 2000
         (saved 1000 empty_db bare_item) bare_item
       = Ok (saved 1000 empty_db bare_item, Skipped).
Proof.
  exact (added_item_is_found ascii_tables example_database 1000 2000 empty_db _ bare_item
           bare_item_added).
Defined.

Lemma untitled_page_is_caught :
  untitled_item !! "company_name" = Some VNone
  /\ run_task (U:=ascii_tables) (D:=example_database) untitled_reply empty_db (zone_task ZONE_URL)
     = (empty_db, Caught AttributeError).
Proof.
  assert (Hn : untitled_item !! "company_name" = Some VNone)
    by (vm_compute; reflexivity).
  apply conj; [exact Hn|].
  apply (none_company_name_is_caught ascii_tables example_database untitled_reply empty_db
           (zone_task ZONE_URL) untitled_page untitled_item (VStr ZONE_URL)).
  - reflexivity.
  - vm_compute. reflexivity.
  - exact Hn.
  - vm_compute. reflexivity.
Defined.

Lemma first_run_required_columns :
  Forall (fun r => required_columns r = true) (rows (fst first_run))
  /\ Forall (fun r => required_columns r = true)
       (search_listings (U:=ascii_tables) (D:=example_database) (str "tata") (fst first_run)).
Proof.
  pose proof (answers_have_the_required_columns ascii_tables example_database
                (three_replies 1000) three_tasks empty_db) as H.
  cbv zeta in H. destruct H as (H1 & _ & _ & H4); [constructor|].
  apply conj; [exact H1 | exact (H4 (str "tata"))].
Defined.

Lemma four_listings_times :
  NoDup (map retrieved_at (rows four_listings)).
Proof. apply (bool_decide_unpack _). vm_compute. reflexivity. Qed.

(** With four listings saved at four different times the most-recent
    view and the broad query give the same answer. *)
Lemma latest_of_four_listings :
  exists broad latest,
    get_listings (D:=example_database) four_listings None None None = Ok broad
    /\ get_latest_listings (D:=example_database) four_listings = Ok latest
    /\ latest = take 10 broad.
Proof.
  destruct (latest_is_the_head_of_the_broad_query example_database
              four_listings) as (broad & latest & Hb & Hl & _ & Hsame).
  exists broad, latest.
  apply conj; [exact Hb|]. apply conj; [exact Hl|].
  exact (Hsame four_listings_times).
Defined.

Lemma search_acme_in_capitals :
  search_listings (U:=ascii_tables) (D:=example_database) (str "ACME") four_listings
  = search_listings (U:=ascii_tables) (D:=example_database) (str "acme") four_listings.
Proof.
  apply (search_ignores_the_case_of_the_query ascii_tables example_database).
  reflexivity.
Defined.

Lemma finance_in_india_complete :
  Permutation (answer (get_listings (D:=example_database) four_listings FINANCE INDIA None))
              (matching four_listings FINANCE INDIA).
Proof.
  apply (proj1 (nothing_is_left_out_below_the_limit ascii_tables example_database four_listings)
           FINANCE INDIA None).
  - vm_compute. reflexivity.
  - apply Nat.leb_le. vm_compute. reflexivity.
Defined.

Lemma status_item_parsed :
  parse_unlistedzone_page (U:=ascii_tables) ZONE_URL status_page
  = Some status_item.
Proof. vm_compute. reflexivity. Qed.

Lemma status_page_has_no_sector :
  status_item !! "sector" = None
  /\ status_item !! "last_known_price" = None
  /\ status_item !! "price_currency" = None.
Proof.
  destruct (proj1 (missing_labels_leave_keys_out ascii_tables ZONE_URL
                     status_page) status_item status_item_parsed)
    as (Hsector & _ & Hprice).
  apply conj; [apply Hsector; repeat constructor|].
  apply Hprice. repeat constructor.
Defined.

Lemma arena_page_price :
  exists it,
    parse_unlistedarena_page (U:=ascii_tables) ARENA_URL (arena_page PRICE_TEXT)
      = Some it
    /\ it !! "last_known_price" = Some (VDecimal (Finite false 123450 (-2)))
    /\ it !! "price_currency" = Some (VStr (str "INR")).
Proof.
  apply (arena_price_is_parsed ascii_tables ARENA_URL (arena_page PRICE_TEXT)
           {| f_classes := [str "entry-title"];
              f_children := [NText (str "Tata Capital")];
              f_next_siblings :=
                [ NTag "table" [str "table"; str "unlisted-price-table"]
                    [ NTag "tr" [] [cell (str "Unlisted Share Price:");
                                    cell PRICE_TEXT];
                      NTag "tr" [] [cell (str "Sector"); cell (str "Finance")];
                      NTag "tr" [] [cell (str "Face Value"); cell (str "10")] ] ] |}
           {| f_classes := [str "table"; str "unlisted-price-table"];
              f_children :=
                [ NTag "tr" [] [cell (str "Unlisted Share Price:");
                                cell PRICE_TEXT];
                  NTag "tr" [] [cell (str "Sector"); cell (str "Finance")];
                  NTag "tr" [] [cell (str "Face Value"); cell (str "10")] ];
              f_next_siblings := [] |}
           []
           [ {| f_classes := [];
                f_children := [cell (str "Sector"); cell (str "Finance")];
                f_next_siblings :=
                  [ NTag "tr" [] [cell (str "Face Value"); cell (str "10")] ] |};
             {| f_classes := [];
                f_children := [cell (str "Face Value"); cell (str "10")];
                f_next_siblings := [] |} ]
           {| f_classes := [];
              f_children := [cell (str "Unlisted Share Price:"); cell PRICE_TEXT];
              f_next_siblings :=
                [ NTag "tr" [] [cell (str "Sector"); cell (str "Finance")];
                  NTag "tr" [] [cell (str "Face Value"); cell (str "10")] ] |}
           (td_tag (str "Unlisted Share Price:") [cell PRICE_TEXT])
           (td_tag PRICE_TEXT [])).
  - reflexivity.
  - reflexivity.
  - reflexivity.
  - repeat constructor.
  - reflexivity.
  - reflexivity.
  - reflexivity.
Defined.

